(** * Kubernetes manifest validators of alcs: a shallow embedding

    This development models the two manifest validators of the repository,
    [src/validate-k8s.py] (the baseline validator) and
    [src/validate-k8s-advanced.py] (the advanced validator), over a model of
    the Python values produced by [yaml.safe_load_all], and proves the
    properties claimed for them.

    Modelling choices:
    - a parsed YAML value is a [pyval]; mapping keys are strings and a mapping
      is an association list in insertion order (a Python dict); floats are
      not modelled;
    - code that can raise runs in [res] (a value or a Python exception);
      code that appends findings to the [errors] / [warnings] lists and may
      raise half-way runs in the monad [M], which threads the two lists and
      keeps what was appended before an exception, as Python does;
    - every f-string finding is a constructor of [msg]; [msg_text] renders it
      to the text the script prints;
    - a file of the [k8s] directory is its name and the outcome of reading and
      parsing it ([load]). *)

From Stdlib Require Import ZArith.
From stdpp Require Import base gmap sets list strings pretty sorting.

Local Set Warnings "-register-all".

(** ** Python values *)

Inductive pyval : Type :=
| PNone
| PBool (b : bool)
| PInt (z : Z)
| PStr (s : string)
| PList (l : list pyval)
| PDict (m : list (string * pyval)).

(** Python exceptions, with the text [str(e)] gives. *)
Inductive exn : Type :=
| AttributeError (msg : string)
| TypeError (msg : string)
| YAMLError (msg : string)
| OSError (msg : string).

Definition exn_str (e : exn) : string :=
  match e with
  | AttributeError m | TypeError m | YAMLError m | OSError m => m
  end.

(** Results of code that may raise. *)
Inductive res (A : Type) : Type :=
| Ok (a : A)
| Exc (e : exn).
Arguments Ok {A} a.
Arguments Exc {A} e.

Definition res_bind {A B} (r : res A) (k : A -> res B) : res B :=
  match r with Ok a => k a | Exc e => Exc e end.

Notation "'let?' x ':=' r 'in' k" := (res_bind r (fun x => k))
  (at level 200, x name, r at level 100, k at level 200).

Definition py_type_name (v : pyval) : string :=
  match v with
  | PNone => "NoneType" | PBool _ => "bool" | PInt _ => "int"
  | PStr _ => "str" | PList _ => "list" | PDict _ => "dict"
  end.

Fixpoint dict_lookup (m : list (string * pyval)) (k : string) : option pyval :=
  match m with
  | [] => None
  | (k', v) :: m' => if String.eqb k k' then Some v else dict_lookup m' k
  end.

(** [o.get(k, d)] *)
Definition py_get (o : pyval) (k : string) (d : pyval) : res pyval :=
  match o with
  | PDict m => Ok (default d (dict_lookup m k))
  | _ => Exc (AttributeError ("'" ++ py_type_name o ++ "' object has no attribute 'get'")%string)
  end.

(** [o.items()] *)
Definition py_items (o : pyval) : res (list (string * pyval)) :=
  match o with
  | PDict m => Ok m
  | _ => Exc (AttributeError ("'" ++ py_type_name o ++ "' object has no attribute 'items'")%string)
  end.

Fixpoint str_chars (s : string) : list pyval :=
  match s with
  | EmptyString => []
  | String c s' => PStr (String c EmptyString) :: str_chars s'
  end.

(** The values a [for] loop visits: list elements, dict keys, characters. *)
Definition py_iter (o : pyval) : res (list pyval) :=
  match o with
  | PList l => Ok l
  | PDict m => Ok (map (fun kv => PStr kv.1) m)
  | PStr s => Ok (str_chars s)
  | _ => Exc (TypeError ("'" ++ py_type_name o ++ "' object is not iterable")%string)
  end.

(** [bool(v)] *)
Definition py_truthy (v : pyval) : bool :=
  match v with
  | PNone => false
  | PBool b => b
  | PInt z => negb (Z.eqb z 0)
  | PStr s => negb (String.eqb s "")
  | PList l => negb (Nat.eqb (length l) 0)
  | PDict m => negb (Nat.eqb (length m) 0)
  end.

(** Numeric view of a value: [bool] is a subclass of [int]. *)
Definition py_num (v : pyval) : option Z :=
  match v with
  | PBool b => Some (if b then 1 else 0)%Z
  | PInt z => Some z
  | _ => None
  end.

(** [a == b]; dict equality ignores the order of the keys. *)
Fixpoint py_eq (a b : pyval) {struct a} : bool :=
  match a, b with
  | PNone, PNone => true
  | PStr s, PStr t => String.eqb s t
  | PList l1, PList l2 =>
      (fix go (l1 l2 : list pyval) : bool :=
         match l1, l2 with
         | [], [] => true
         | x :: r1, y :: r2 => py_eq x y && go r1 r2
         | _, _ => false
         end) l1 l2
  | PDict m1, PDict m2 =>
      Nat.eqb (length m1) (length m2) &&
      (fix go (m : list (string * pyval)) : bool :=
         match m with
         | [] => true
         | (k, v) :: r =>
             match dict_lookup m2 k with
             | Some w => py_eq v w && go r
             | None => false
             end
         end) m1
  | _, _ =>
      match py_num a, py_num b with
      | Some x, Some y => Z.eqb x y
      | _, _ => false
      end
  end.

(** [needle in s] for strings. *)
Fixpoint str_contains (needle s : string) : bool :=
  String.prefix needle s ||
  match s with
  | EmptyString => false
  | String _ s' => str_contains needle s'
  end.

(** [needle in o] for a string literal [needle]. *)
Definition py_in (needle : string) (o : pyval) : res bool :=
  match o with
  | PStr s => Ok (str_contains needle s)
  | PList l => Ok (existsb (py_eq (PStr needle)) l)
  | PDict m => Ok (bool_decide (is_Some (dict_lookup m needle)))
  | _ => Exc (TypeError ("argument of type '" ++ py_type_name o ++ "' is not iterable")%string)
  end.

(** [repr(v)] and [str(v)]; escape sequences inside string reprs are not
    modelled (they never create or remove an upper-case word). *)
Fixpoint py_repr (v : pyval) : string :=
  match v with
  | PNone => "None"
  | PBool b => if b then "True" else "False"
  | PInt z => pretty z
  | PStr s => "'" ++ s ++ "'"
  | PList l =>
      "[" ++
      (fix go (l : list pyval) : string :=
         match l with
         | [] => ""
         | [x] => py_repr x
         | x :: r => py_repr x ++ ", " ++ go r
         end) l ++ "]"
  | PDict m =>
      "{" ++
      (fix go (m : list (string * pyval)) : string :=
         match m with
         | [] => ""
         | [(k, x)] => "'" ++ k ++ "': " ++ py_repr x
         | (k, x) :: r => "'" ++ k ++ "': " ++ py_repr x ++ ", " ++ go r
         end) m ++ "}"
  end%string.

Definition py_str (v : pyval) : string :=
  match v with PStr s => s | _ => py_repr v end.

(** Comparisons [a >= b] and [a < b]: numbers compare numerically, strings
    lexicographically, lists element by element (the first pair of unequal
    elements decides, else the lengths); other operands raise. *)
Fixpoint py_cmp (op : string) (a b : pyval) {struct a} : res comparison :=
  match py_num a, py_num b with
  | Some x, Some y => Ok (Z.compare x y)
  | _, _ =>
      match a, b with
      | PStr s, PStr t => Ok (String.compare s t)
      | PList l1, PList l2 =>
          (fix go (l1 l2 : list pyval) : res comparison :=
             match l1, l2 with
             | [], [] => Ok Eq
             | [], _ :: _ => Ok Lt
             | _ :: _, [] => Ok Gt
             | x :: r1, y :: r2 => if py_eq x y then go r1 r2 else py_cmp op x y
             end) l1 l2
      | _, _ =>
          Exc (TypeError ("'" ++ op ++ "' not supported between instances of '" ++
                          py_type_name a ++ "' and '" ++ py_type_name b ++ "'")%string)
      end
  end.

Definition py_ge (a b : pyval) : res bool :=
  let? c := py_cmp ">=" a b in Ok (match c with Lt => false | _ => true end).

Definition py_lt (a b : pyval) : res bool :=
  let? c := py_cmp "<" a b in Ok (match c with Lt => true | _ => false end).

(** Hash keys: equal hashable values have equal keys ([True] and [1] too). *)
Inductive hkey : Type :=
| HNone
| HInt (z : Z)
| HStr (s : string).

#[global] Instance hkey_eq_dec : EqDecision hkey.
Proof. solve_decision. Defined.

Definition hkey_enc (h : hkey) : option (Z + string) :=
  match h with HNone => None | HInt z => Some (inl z) | HStr s => Some (inr s) end.
Definition hkey_dec (o : option (Z + string)) : hkey :=
  match o with None => HNone | Some (inl z) => HInt z | Some (inr s) => HStr s end.

#[global] Instance hkey_countable : Countable hkey.
Proof.
  apply (inj_countable' hkey_enc hkey_dec). by intros [].
Defined.

(** [hash(v)], as far as set membership sees it. *)
Definition py_hash (v : pyval) : res hkey :=
  match v with
  | PNone => Ok HNone
  | PBool b => Ok (HInt (if b then 1 else 0)%Z)
  | PInt z => Ok (HInt z)
  | PStr s => Ok (HStr s)
  | _ => Exc (TypeError ("unhashable type: '" ++ py_type_name v ++ "'")%string)
  end.

(** ** Findings

    One constructor per f-string of the two scripts.  [f] is the file name
    ([file_path.name]) in the advanced validator; [p] is the path
    [k8s/<name>] ([file_path]) wherever the scripts print the path. *)

Inductive msg : Type :=
(* src/validate-k8s-advanced.py *)
| MTemplateNoLabels (f : string)
| MSelectorMismatch (f k : string) (v : pyval)
| MLatestTag (f : string) (name : pyval)
| MNoLimits (f : string) (name : pyval)
| MNoRequests (f : string) (name : pyval)
| MPrivileged (f : string) (name : pyval)
| MNoRunAsNonRoot (f : string) (name : pyval)
| MNoReadOnlyRoot (f : string) (name : pyval)
| MServiceNoSelector (f : string)
| MDuplicatePort (f : string) (name : pyval)
| MIngressNoTls (f : string)
| MIngressRuleNoHost (f : string)
| MIngressExampleCom (f : string)
| MSecretPlaceholder (f k : string)
| MHpaMinGeMax (f : string) (mn mx : pyval)
| MHpaMinLow (f : string) (mn : pyval)
| MNetpolNoTypes (f : string)
| MValidating (p : string) (e : exn)
| MTooManyApps (n : nat)
(* src/validate-k8s.py *)
| MNoDocuments (p : string)
| MMissingApiVersion (i : nat) (p : string)
| MMissingKind (i : nat) (p : string)
| MMissingMetadata (i : nat) (p : string)
| MMissingName (i : nat) (p : string)
| MDeplNoSelector (p : string)
| MDeplNoTemplate (p : string)
| MSvcNoSelector (p : string)
| MSvcNoPorts (p : string)
| MSecretNoData (p : string)
| MConfigMapNoData (p : string)
| MIngressNoRules (p : string)
| MYamlParse (p : string) (e : exn)
| MReading (p : string) (e : exn).

Definition msg_text (x : msg) : string :=
  match x with
  | MTemplateNoLabels f => f ++ ": Deployment template should have labels"
  | MSelectorMismatch f k v =>
      f ++ ": Selector label " ++ k ++ "=" ++ py_str v ++ " doesn't match template label"
  | MLatestTag f n => f ++ ": Container '" ++ py_str n ++ "' uses 'latest' tag or no tag"
  | MNoLimits f n => f ++ ": Container '" ++ py_str n ++ "' has no resource limits"
  | MNoRequests f n => f ++ ": Container '" ++ py_str n ++ "' has no resource requests"
  | MPrivileged f n => f ++ ": Container '" ++ py_str n ++ "' runs as privileged"
  | MNoRunAsNonRoot f n =>
      f ++ ": Container '" ++ py_str n ++ "' doesn't explicitly set runAsNonRoot"
  | MNoReadOnlyRoot f n =>
      f ++ ": Container '" ++ py_str n ++ "' doesn't use readOnlyRootFilesystem"
  | MServiceNoSelector f => f ++ ": Service has no selector"
  | MDuplicatePort f n => f ++ ": Duplicate port name '" ++ py_str n ++ "'"
  | MIngressNoTls f => f ++ ": Ingress doesn't configure TLS"
  | MIngressRuleNoHost f => f ++ ": Ingress rule has no host"
  | MIngressExampleCom f => f ++ ": Ingress uses example.com (placeholder?)"
  | MSecretPlaceholder f k => f ++ ": Secret '" ++ k ++ "' contains CHANGE_ME placeholder"
  | MHpaMinGeMax f a b =>
      f ++ ": minReplicas (" ++ py_str a ++ ") >= maxReplicas (" ++ py_str b ++ ")"
  | MHpaMinLow f a => f ++ ": minReplicas is " ++ py_str a ++ " (consider >= 2 for HA)"
  | MNetpolNoTypes f => f ++ ": NetworkPolicy has no policyTypes"
  | MValidating p e => "Error validating " ++ p ++ ": " ++ exn_str e
  | MTooManyApps n =>
      "Found " ++ pretty n ++ " different 'app' labels. Consider standardization."
  | MNoDocuments p => "No documents found in " ++ p
  | MMissingApiVersion i p => "Document " ++ pretty i ++ " in " ++ p ++ ": Missing 'apiVersion'"
  | MMissingKind i p => "Document " ++ pretty i ++ " in " ++ p ++ ": Missing 'kind'"
  | MMissingMetadata i p => "Document " ++ pretty i ++ " in " ++ p ++ ": Missing 'metadata'"
  | MMissingName i p => "Document " ++ pretty i ++ " in " ++ p ++ ": Missing 'metadata.name'"
  | MDeplNoSelector p => p ++ ": Deployment missing 'spec.selector'"
  | MDeplNoTemplate p => p ++ ": Deployment missing 'spec.template'"
  | MSvcNoSelector p => p ++ ": Service missing 'spec.selector' (headless?)"
  | MSvcNoPorts p => p ++ ": Service missing 'spec.ports'"
  | MSecretNoData p => p ++ ": Secret has no data or stringData"
  | MConfigMapNoData p => p ++ ": ConfigMap has no data"
  | MIngressNoRules p => p ++ ": Ingress missing 'spec.rules'"
  | MYamlParse p e => "YAML parsing error in " ++ p ++ ": " ++ exn_str e
  | MReading p e => "Error reading " ++ p ++ ": " ++ exn_str e
  end%string.

(** ** The findings monad

    [errors] and [warnings] are threaded as a pair; an exception stops the
    computation and keeps the lists as they were when it was raised. *)

Definition M (A : Type) : Type :=
  list msg * list msg -> (list msg * list msg) * res A.

Definition M_ret {A} (a : A) : M A := fun s => (s, Ok a).

Definition M_bind {A B} (k : A -> M B) (m : M A) : M B :=
  fun s => match m s with
           | (s', Ok a) => k a s'
           | (s', Exc e) => (s', Exc e)
           end.

#[global] Instance M_mret : MRet M := @M_ret.
#[global] Instance M_mbind : MBind M := @M_bind.

Definition lift {A} (r : res A) : M A := fun s => (s, r).

Definition error (x : msg) : M unit := fun s => ((s.1 ++ [x], s.2), Ok tt).
Definition warning (x : msg) : M unit := fun s => ((s.1, s.2 ++ [x]), Ok tt).

Definition pass : M unit := mret tt.

Definition when (b : bool) (m : M unit) : M unit := if b then m else pass.

Fixpoint mfor {A} (body : A -> M unit) (l : list A) : M unit :=
  match l with
  | [] => mret tt
  | x :: r => body x ;; mfor body r
  end.

(** A kind validator: fresh local lists, returned unless it raised. *)
Definition run_validator (m : M unit) : res (list msg * list msg) :=
  match m ([], []) with
  | (s, Ok _) => Ok s
  | (_, Exc e) => Exc e
  end.

(** ** Files of the [k8s] directory *)

Inductive load : Type :=
| Loaded (docs : list pyval)   (* list(yaml.safe_load_all(...)) *)
| LoadError (e : exn).         (* open/read failed or the YAML did not parse *)

Record file : Type := mkfile { fname : string; fcontent : load }.

Definition fpath (fl : file) : string := ("k8s/" ++ fname fl)%string.

(** ** src/validate-k8s-advanced.py: the kind validators *)

Section advanced.
Variable f : string.   (* file_path.name *)

(** The selector loop: [for key, value in selector.items()]. *)
Fixpoint check_selector (template_labels : pyval) (items : list (string * pyval)) : M unit :=
  match items with
  | [] => mret tt
  | (key, value) :: rest =>
      got ← lift (py_get template_labels key PNone);
      when (negb (py_eq got value)) (error (MSelectorMismatch f key value));;
      check_selector template_labels rest
  end.

(** The body of [for container in containers]. *)
Definition check_container (container : pyval) : M unit :=
  name ← lift (py_get container "name" (PStr "unnamed"));
  image ← lift (py_get container "image" (PStr ""));
  has_latest ← lift (py_in ":latest" image);
  untagged ← (if has_latest then mret false
              else has_colon ← lift (py_in ":" image); mret (negb has_colon));
  when (has_latest || untagged) (warning (MLatestTag f name));;
  resources ← lift (py_get container "resources" (PDict []));
  limits ← lift (py_get resources "limits" PNone);
  when (negb (py_truthy limits)) (warning (MNoLimits f name));;
  requests ← lift (py_get resources "requests" PNone);
  when (negb (py_truthy requests)) (warning (MNoRequests f name));;
  security_context ← lift (py_get container "securityContext" (PDict []));
  privileged ← lift (py_get security_context "privileged" PNone);
  when (py_truthy privileged) (error (MPrivileged f name));;
  non_root ← lift (py_get security_context "runAsNonRoot" PNone);
  when (negb (py_truthy non_root)) (warning (MNoRunAsNonRoot f name));;
  read_only ← lift (py_get security_context "readOnlyRootFilesystem" PNone);
  when (negb (py_truthy read_only)) (warning (MNoReadOnlyRoot f name)).

Definition validate_deployment (doc : pyval) : M unit :=
  spec ← lift (py_get doc "spec" (PDict []));
  template ← lift (py_get spec "template" (PDict []));
  pod_spec ← lift (py_get template "spec" (PDict []));
  metadata ← lift (py_get template "metadata" (PDict []));
  labels ← lift (py_get metadata "labels" PNone);
  when (negb (py_truthy labels)) (warning (MTemplateNoLabels f));;
  sel ← lift (py_get spec "selector" (PDict []));
  selector ← lift (py_get sel "matchLabels" (PDict []));
  template_labels ← lift (py_get metadata "labels" (PDict []));
  when (py_truthy selector && py_truthy template_labels)
    (items ← lift (py_items selector); check_selector template_labels items);;
  containers ← lift (py_get pod_spec "containers" (PList []));
  cs ← lift (py_iter containers);
  mfor check_container cs.

(** The port loop; [port_names] is the Python set of names seen so far. *)
Fixpoint check_ports (port_names : gset hkey) (ports : list pyval) : M unit :=
  match ports with
  | [] => mret tt
  | port :: rest =>
      port_name ← lift (py_get port "name" PNone);
      if py_truthy port_name then
        h ← lift (py_hash port_name);
        when (bool_decide (h ∈ port_names)) (error (MDuplicatePort f port_name));;
        check_ports ({[h]} ∪ port_names) rest
      else check_ports port_names rest
  end.

Definition validate_service (doc : pyval) : M unit :=
  spec ← lift (py_get doc "spec" (PDict []));
  selector ← lift (py_get spec "selector" (PDict []));
  cluster_ip ← lift (py_get spec "clusterIP" PNone);
  when (negb (py_eq cluster_ip (PStr "None")) && negb (py_truthy selector))
    (warning (MServiceNoSelector f));;
  ports ← lift (py_get spec "ports" (PList []));
  ps ← lift (py_iter ports);
  check_ports ∅ ps.

Definition check_rule (rule : pyval) : M unit :=
  host ← lift (py_get rule "host" PNone);
  if negb (py_truthy host) then warning (MIngressRuleNoHost f)
  else placeholder ← lift (py_in "example.com" host);
       when placeholder (warning (MIngressExampleCom f)).

Definition validate_ingress (doc : pyval) : M unit :=
  spec ← lift (py_get doc "spec" (PDict []));
  tls ← lift (py_get spec "tls" PNone);
  when (negb (py_truthy tls)) (warning (MIngressNoTls f));;
  rules ← lift (py_get spec "rules" (PList []));
  rs ← lift (py_iter rules);
  mfor check_rule rs.

(** [d[k] = v] on a dict: an existing key keeps its place. *)
Fixpoint dict_set (m : list (string * pyval)) (k : string) (v : pyval) : list (string * pyval) :=
  match m with
  | [] => [(k, v)]
  | (k', v') :: m' => if String.eqb k k' then (k', v) :: m' else (k', v') :: dict_set m' k v
  end.

(** [{**a, **b}]: both operands must be mappings. *)
Definition dict_unpack (o : pyval) : res (list (string * pyval)) :=
  match o with
  | PDict m => Ok m
  | _ => Exc (TypeError ("'" ++ py_type_name o ++ "' object is not a mapping")%string)
  end.

Definition dict_merge (a b : pyval) : res (list (string * pyval)) :=
  let? ma := dict_unpack a in
  let? mb := dict_unpack b in
  Ok (fold_left (fun acc kv => dict_set acc kv.1 kv.2) (ma ++ mb) []).

Definition validate_secret (doc : pyval) : M unit :=
  data ← lift (py_get doc "data" (PDict []));
  string_data ← lift (py_get doc "stringData" (PDict []));
  all_data ← lift (dict_merge data string_data);
  mfor (fun kv => when (py_truthy kv.2 && str_contains "CHANGE_ME" (py_str kv.2))
                       (warning (MSecretPlaceholder f kv.1))) all_data.

Definition validate_hpa (doc : pyval) : M unit :=
  spec ← lift (py_get doc "spec" (PDict []));
  min_replicas ← lift (py_get spec "minReplicas" (PInt 1));
  max_replicas ← lift (py_get spec "maxReplicas" (PInt 1));
  ge ← lift (py_ge min_replicas max_replicas);
  when ge (error (MHpaMinGeMax f min_replicas max_replicas));;
  lt ← lift (py_lt min_replicas (PInt 2));
  when lt (warning (MHpaMinLow f min_replicas)).

Definition validate_network_policy (doc : pyval) : M unit :=
  spec ← lift (py_get doc "spec" (PDict []));
  policy_types ← lift (py_get spec "policyTypes" (PList []));
  has_ingress ← lift (py_in "Ingress" policy_types);
  when (negb has_ingress)
    (has_egress ← lift (py_in "Egress" policy_types);
     when (negb has_egress) (warning (MNetpolNoTypes f))).

End advanced.

(** ** src/validate-k8s-advanced.py: dispatch, files, label consistency *)

(** The body of [for doc in docs] in [validate_advanced]: the kind table. *)
Definition advanced_doc (f : string) (doc : pyval) : res (list msg * list msg) :=
  match doc with
  | PNone => Ok ([], [])
  | _ =>
      let? kind := py_get doc "kind" (PStr "") in
      if py_eq kind (PStr "Deployment") || py_eq kind (PStr "StatefulSet") then
        run_validator (validate_deployment f doc)
      else if py_eq kind (PStr "Service") then run_validator (validate_service f doc)
      else if py_eq kind (PStr "Ingress") then run_validator (validate_ingress f doc)
      else if py_eq kind (PStr "Secret") then run_validator (validate_secret f doc)
      else if py_eq kind (PStr "HorizontalPodAutoscaler") then run_validator (validate_hpa f doc)
      else if py_eq kind (PStr "NetworkPolicy") then run_validator (validate_network_policy f doc)
      else Ok ([], [])
  end.

(** The loop over the documents of one file; an exception ends it and is
    reported by the [except] clause. *)
Fixpoint advanced_docs (fl : file) (docs : list pyval) (errors warnings : list msg)
  : list msg * list msg :=
  match docs with
  | [] => (errors, warnings)
  | doc :: rest =>
      match advanced_doc (fname fl) doc with
      | Ok (e, w) => advanced_docs fl rest (errors ++ e) (warnings ++ w)
      | Exc ex => (errors ++ [MValidating (fpath fl) ex], warnings)
      end
  end.

Definition validate_advanced (fl : file) : list msg * list msg :=
  match fcontent fl with
  | LoadError ex => ([MValidating (fpath fl) ex], [])
  | Loaded docs => advanced_docs fl docs [] []
  end.

(** [metadata.labels.app] of one document. *)
Definition app_label_of (doc : pyval) : res pyval :=
  let? metadata := py_get doc "metadata" (PDict []) in
  let? labels := py_get metadata "labels" (PDict []) in
  py_get labels "app" PNone.

(** The documents of one file: [app_labels[name].add(app_label)] until a
    document raises; the [defaultdict] entry is created before [add]
    hashes the label. *)
Fixpoint scan_app_labels (name : string) (docs : list pyval)
  (app_labels : gmap string (gset hkey)) : gmap string (gset hkey) :=
  match docs with
  | [] => app_labels
  | PNone :: rest => scan_app_labels name rest app_labels
  | doc :: rest =>
      match app_label_of doc with
      | Exc _ => app_labels
      | Ok app_label =>
          if py_truthy app_label then
            let s := default ∅ (app_labels !! name) in
            match py_hash app_label with
            | Ok h => scan_app_labels name rest (<[name := {[h]} ∪ s]> app_labels)
            | Exc _ => <[name := s]> app_labels
            end
          else scan_app_labels name rest app_labels
      end
  end.

Definition is_manifest (fl : file) : bool := negb (String.eqb (fname fl) "kustomization.yaml").

(** One file of [k8s_dir.glob('*.yaml')]; unreadable files are skipped. *)
Definition label_scan (app_labels : gmap string (gset hkey)) (fl : file) : gmap string (gset hkey) :=
  if is_manifest fl then
    match fcontent fl with
    | LoadError _ => app_labels
    | Loaded docs => scan_app_labels (fname fl) docs app_labels
    end
  else app_labels.

(** [listing] is the order in which the glob returns the files. The union
    over [app_labels.items()] does not depend on the order of the items. *)
Definition all_app_labels (listing : list file) : gset hkey :=
  ⋃ (map snd (map_to_list (fold_left label_scan listing ∅))).

Definition check_label_consistency (listing : list file) : list msg * list msg :=
  let all_apps := all_app_labels listing in
  if 5 <? size all_apps then ([], [MTooManyApps (size all_apps)]) else ([], []).

(** ** The report of both scripts *)

Definition nl : string := String (Ascii.ascii_of_nat 10) EmptyString.

Fixpoint repeat_str (n : nat) (s : string) : string :=
  match n with O => EmptyString | S n' => (s ++ repeat_str n' s)%string end.

(** [sorted(yaml_files)]: paths of one directory compare by their names
    (all names are distinct, so any correct sort gives this order). *)
Definition file_le (a b : file) : Prop := String.le (fname a) (fname b).

#[global] Instance file_le_dec : RelDecision file_le.
Proof. intros a b. unfold file_le. apply _. Defined.

Definition sorted_files (l : list file) : list file := merge_sort file_le l.

Definition error_lines (errors : list msg) : list string :=
  map (fun e => "   ERROR: " ++ msg_text e)%string errors.
Definition warning_lines (warnings : list msg) : list string :=
  map (fun w => "   WARNING: " ++ msg_text w)%string warnings.

Section report.
Variable validate : file -> list msg * list msg.

(** The per-file loop of [main]: a file's warnings are printed and counted
    only when it has no errors. *)
Fixpoint report_files (files : list file) (out : list string) (all_errors all_warnings : list msg)
  : list string * list msg * list msg :=
  match files with
  | [] => (out, all_errors, all_warnings)
  | fl :: rest =>
      let '(errors, warnings) := validate fl in
      match errors, warnings with
      | _ :: _, _ =>
          report_files rest (out ++ ("❌ " ++ fname fl ++ ":")%string :: error_lines errors)
            (all_errors ++ errors) all_warnings
      | [], _ :: _ =>
          report_files rest (out ++ ("⚠️  " ++ fname fl ++ ":")%string :: warning_lines warnings)
            all_errors (all_warnings ++ warnings)
      | [], [] =>
          report_files rest (out ++ [("✅ " ++ fname fl)%string]) all_errors all_warnings
      end
  end.
End report.

Definition summary_lines (n_files : nat) (all_errors all_warnings : list msg) : list string :=
  [(nl ++ repeat_str 60 "=")%string; "Summary:";
   ("  Files checked: " ++ pretty n_files)%string;
   ("  Errors: " ++ pretty (length all_errors))%string;
   ("  Warnings: " ++ pretty (length all_warnings))%string].

(** [main()] of the advanced validator: printed lines and exit status. *)
Definition main_advanced (listing : list file) : list string * Z :=
  let yaml_files := filter is_manifest listing in
  let header := ("🔍 Running advanced validation on " ++ pretty (length yaml_files) ++
                 " manifest files..." ++ nl)%string in
  let '(out, all_errors, all_warnings) :=
    report_files validate_advanced (sorted_files yaml_files) [header] [] [] in
  let out := out ++ [(nl ++ "📋 Checking label consistency...")%string] in
  let '(errors, warnings) := check_label_consistency listing in
  let all_errors := all_errors ++ errors in
  let all_warnings := all_warnings ++ warnings in
  let out := out ++ error_lines errors in
  let out := out ++ (match warnings with
                     | [] => ["   ✅ Labels are consistent"]
                     | _ => warning_lines warnings
                     end) in
  let out := out ++ summary_lines (length yaml_files) all_errors all_warnings in
  match all_errors, all_warnings with
  | _ :: _, _ =>
      (out ++ [(nl ++ "❌ Advanced validation FAILED with " ++ pretty (length all_errors) ++ " error(s)")%string], 1%Z)
  | [], _ :: _ =>
      (out ++ [(nl ++ "⚠️  Advanced validation passed with " ++ pretty (length all_warnings) ++ " warning(s)")%string;
               "   (Warnings are suggestions, not blockers)"], 0%Z)
  | [], [] => (out ++ [(nl ++ "✅ All manifests pass advanced validation!")%string], 0%Z)
  end.

(** ** src/validate-k8s.py *)

Definition is_none (v : pyval) : bool := match v with PNone => true | _ => false end.

Definition branch (b : bool) (yes no : M unit) : M unit := if b then yes else no.

(** The body of [for i, doc in enumerate(docs)]. *)
Definition baseline_doc (fl : file) (i : nat) (doc : pyval) : M unit :=
  let p := fpath fl in
  match doc with
  | PNone => pass
  | _ =>
      kind ← lift (py_get doc "kind" (PStr ""));
      branch (py_eq kind (PStr "Kustomization") || String.eqb (fname fl) "kustomization.yaml")
        pass
        (has_api ← lift (py_in "apiVersion" doc);
         when (negb has_api) (error (MMissingApiVersion i p));;
         has_kind ← lift (py_in "kind" doc);
         when (negb has_kind) (error (MMissingKind i p));;
         has_metadata ← lift (py_in "metadata" doc);
         branch has_metadata
           (metadata ← lift (py_get doc "metadata" (PDict []));
            has_name ← lift (py_in "name" metadata);
            when (negb has_name) (error (MMissingName i p)))
           (error (MMissingMetadata i p));;
         kind ← lift (py_get doc "kind" (PStr ""));
         if py_eq kind (PStr "Deployment") then
           spec ← lift (py_get doc "spec" (PDict []));
           has_selector ← lift (py_in "selector" spec);
           when (negb has_selector) (error (MDeplNoSelector p));;
           has_template ← lift (py_in "template" spec);
           when (negb has_template) (error (MDeplNoTemplate p))
         else if py_eq kind (PStr "Service") then
           spec ← lift (py_get doc "spec" (PDict []));
           has_selector ← lift (py_in "selector" spec);
           when (negb has_selector) (warning (MSvcNoSelector p));;
           has_ports ← lift (py_in "ports" spec);
           when (negb has_ports) (error (MSvcNoPorts p))
         else if py_eq kind (PStr "Secret") then
           data ← lift (py_get doc "data" PNone);
           when (is_none data)
             (string_data ← lift (py_get doc "stringData" PNone);
              when (is_none string_data) (error (MSecretNoData p)))
         else if py_eq kind (PStr "ConfigMap") then
           data ← lift (py_get doc "data" PNone);
           when (is_none data) (warning (MConfigMapNoData p))
         else if py_eq kind (PStr "Ingress") then
           spec ← lift (py_get doc "spec" (PDict []));
           has_rules ← lift (py_in "rules" spec);
           when (negb has_rules) (error (MIngressNoRules p))
         else pass)
  end.

Fixpoint baseline_docs (fl : file) (i : nat) (docs : list pyval) : M unit :=
  match docs with
  | [] => pass
  | doc :: rest => baseline_doc fl i doc;; baseline_docs fl (S i) rest
  end.

(** [validate_yaml_file]: parse errors and the exceptions of the loop are
    reported by the two [except] clauses, after what was already found. *)
Definition validate_yaml_file (fl : file) : list msg * list msg :=
  let p := fpath fl in
  match fcontent fl with
  | LoadError (YAMLError m) => ([MYamlParse p (YAMLError m)], [])
  | LoadError e => ([MReading p e], [])
  | Loaded [] => ([MNoDocuments p], [])
  | Loaded docs =>
      match baseline_docs fl 0 docs ([], []) with
      | (s, Ok _) => s
      | ((errors, warnings), Exc e) => (errors ++ [MReading p e], warnings)
      end
  end.

(** [main()] of the baseline validator; [dir_exists] is [k8s_dir.exists()]. *)
Definition main_baseline (dir_exists : bool) (listing : list file) : list string * Z :=
  if negb dir_exists then (["❌ k8s directory not found"], 1%Z)
  else match listing with
  | [] => (["❌ No YAML files found in k8s directory"], 1%Z)
  | _ =>
      let header := ("🔍 Validating " ++ pretty (length listing) ++
                     " Kubernetes manifest files..." ++ nl)%string in
      let '(out, all_errors, all_warnings) :=
        report_files validate_yaml_file (sorted_files listing) [header] [] [] in
      let out := out ++ summary_lines (length listing) all_errors all_warnings in
      match all_errors, all_warnings with
      | _ :: _, _ =>
          (out ++ [(nl ++ "❌ Validation FAILED with " ++ pretty (length all_errors) ++ " error(s)")%string], 1%Z)
      | [], _ :: _ =>
          (out ++ [(nl ++ "⚠️  Validation passed with " ++ pretty (length all_warnings) ++ " warning(s)")%string], 0%Z)
      | [], [] => (out ++ [(nl ++ "✅ All manifests are valid!")%string], 0%Z)
      end
  end.

(** ** Views used to state the properties *)

(** [port.get('name')] of a declared port. *)
Definition port_name_of (port : pyval) : pyval :=
  match port with PDict m => default PNone (dict_lookup m "name") | _ => PNone end.

(** The hash key of a port name, when it is hashable. *)
Definition name_key (n : pyval) : option hkey :=
  match py_hash n with Ok h => Some h | Exc _ => None end.

(** The key [port_names] records for a port: none for a falsy name. *)
Definition port_key (port : pyval) : option hkey :=
  if py_truthy (port_name_of port) then name_key (port_name_of port) else None.

(** The selector key an Error of the selector check names. *)
Definition selector_error_key (e : msg) : option string :=
  match e with MSelectorMismatch _ k _ => Some k | _ => None end.

(** [m] only appends Errors satisfying [P] to the Error list. *)
Definition only_appends (P : msg -> Prop) {A} (m : M A) : Prop :=
  forall es ws s' r, m (es, ws) = (s', r) -> exists extra, s'.1 = es ++ extra /\ Forall P extra.

(** The [app] labels one file adds to [app_labels], read document by
    document: the scan of the file stops at the first document that raises. *)
Fixpoint file_labels (docs : list pyval) : gset hkey :=
  match docs with
  | [] => ∅
  | PNone :: rest => file_labels rest
  | doc :: rest =>
      match app_label_of doc with
      | Exc _ => ∅
      | Ok app_label =>
          if py_truthy app_label then
            match py_hash app_label with
            | Ok h => {[h]} ∪ file_labels rest
            | Exc _ => ∅
            end
          else file_labels rest
      end
  end.

(** The labels a listed file contributes: none for [kustomization.yaml] or
    an unreadable file. *)
Definition scanned_labels (fl : file) : gset hkey :=
  if is_manifest fl then
    match fcontent fl with
    | Loaded docs => file_labels docs
    | LoadError _ => ∅
    end
  else ∅.

Definition labels_at (j : string) (fl : file) : gset hkey :=
  if String.eqb j (fname fl) then scanned_labels fl else ∅.

(** Whether a finding is the baseline "no data" Error of a Secret. *)
Definition is_secret_no_data (e : msg) : bool :=
  match e with MSecretNoData _ => true | _ => false end.

(** The lines one file adds to the report, as the loop of [main] prints them. *)
Definition file_block (validate : file -> list msg * list msg) (fl : file) : list string :=
  let '(errors, warnings) := validate fl in
  match errors, warnings with
  | _ :: _, _ => ("❌ " ++ fname fl ++ ":")%string :: error_lines errors
  | [], _ :: _ => ("⚠️  " ++ fname fl ++ ":")%string :: warning_lines warnings
  | [], [] => [("✅ " ++ fname fl)%string]
  end.

(** The Warnings of one file that [main] adds to [all_warnings]. *)
Definition counted_warnings (validate : file -> list msg * list msg) (fl : file) : list msg :=
  let '(errors, warnings) := validate fl in
  match errors with [] => warnings | _ :: _ => [] end.

(** The name order is a total preorder on files. *)
#[global] Instance file_le_trans : Transitive file_le.
Proof. intros a b c. unfold file_le. apply transitivity. Qed.
#[global] Instance file_le_total : Total file_le.
Proof. intros a b. unfold file_le. apply total, _. Qed.

(** The Errors [validate_deployment] may emit for file [f]. *)
Definition deployment_error (f : string) (e : msg) : Prop :=
  (exists k v, e = MSelectorMismatch f k v) \/ (exists n, e = MPrivileged f n).

(** [m] appends at most [ne] Errors and [nw] Warnings. *)
Definition within (ne nw : nat) {A} (m : M A) : Prop :=
  forall es ws s' r, m (es, ws) = (s', r) ->
  exists e' w', s' = (es ++ e', ws ++ w') /\ length e' <= ne /\ length w' <= nw.

(** * Properties *)

(** ** Basic facts about the Python model *)

Lemma py_eq_str_r (v : pyval) (s : string) : py_eq v (PStr s) = true <-> v = PStr s.
Proof.
  split; intros H.
  - destruct v as [|b|z|t|l|m]; simpl in H; try discriminate;
      try (destruct b; discriminate); try (destruct l; discriminate);
      try (destruct m; discriminate).
    apply String.eqb_eq in H. by subst.
  - subst. simpl. apply String.eqb_refl.
Qed.

Lemma py_eq_str_r_false (v : pyval) (s : string) : v <> PStr s -> py_eq v (PStr s) = false.
Proof.
  intros Hne. destruct (py_eq v (PStr s)) eqn:E; [|done].
  by apply py_eq_str_r in E.
Qed.

Lemma py_get_dict (m : list (string * pyval)) (k : string) (d : pyval) :
  py_get (PDict m) k d = Ok (default d (dict_lookup m k)).
Proof. reflexivity. Qed.

(** Unfolding the findings monad. *)
Ltac munfold :=
  unfold mbind, M_mbind, M_bind, mret, M_mret, M_ret, lift, when, branch, pass,
    error, warning in *.

Lemma mfor_cons {A} (body : A -> M unit) (x : A) (l : list A) s :
  mfor body (x :: l) s =
  match body x s with
  | (s', Ok _) => mfor body l s'
  | (s', Exc e) => (s', Exc e)
  end.
Proof. reflexivity. Qed.

(** ** The HorizontalPodAutoscaler rule *)

(** C4: with integer (or unset, defaulting to 1) replica bounds, [validate_hpa]
    returns one Error iff [minReplicas >= maxReplicas] and one Warning iff
    [minReplicas < 2], and nothing else. *)
Theorem validate_hpa_findings (f : string) (d sp : list (string * pyval)) (mn mx : Z) :
  default (PDict []) (dict_lookup d "spec") = PDict sp ->
  default (PInt 1) (dict_lookup sp "minReplicas") = PInt mn ->
  default (PInt 1) (dict_lookup sp "maxReplicas") = PInt mx ->
  run_validator (validate_hpa f (PDict d)) =
  Ok ((if (mx <=? mn)%Z then [MHpaMinGeMax f (PInt mn) (PInt mx)] else []),
      (if (mn <? 2)%Z then [MHpaMinLow f (PInt mn)] else [])).
Proof.
  intros Hspec Hmin Hmax.
  unfold run_validator, validate_hpa. munfold.
  rewrite py_get_dict, Hspec. cbv beta iota. rewrite !py_get_dict, Hmin, Hmax. simpl.
  destruct (Z.compare_spec mn mx); destruct (Z.leb_spec mx mn); try lia;
  destruct (Z.compare_spec mn 2); destruct (Z.ltb_spec mn 2); try lia; reflexivity.
Qed.

(** ** The kind table of the advanced validator *)

(** C3: a mapping document whose [kind] (default [""]) is none of the
    registered kinds gets no finding from the advanced dispatch. *)
Theorem advanced_doc_unregistered_kind (f : string) (d : list (string * pyval)) :
  Forall (fun k => default (PStr "") (dict_lookup d "kind") <> PStr k)
    ["Deployment"; "StatefulSet"; "Service"; "Ingress"; "Secret";
     "HorizontalPodAutoscaler"; "NetworkPolicy"] ->
  advanced_doc f (PDict d) = Ok ([], []).
Proof.
  intros Hk. repeat rewrite Forall_cons in Hk.
  destruct Hk as (H1 & H2 & H3 & H4 & H5 & H6 & H7 & _).
  unfold advanced_doc. rewrite py_get_dict. simpl.
  rewrite !py_eq_str_r_false by assumption. reflexivity.
Qed.

(** ** Secrets: the merged mapping [{**data, **stringData}] *)

Lemma dict_lookup_set_eq (m : list (string * pyval)) (k : string) (v : pyval) :
  dict_lookup (dict_set m k v) k = Some v.
Proof.
  induction m as [|[k' v'] m IH]; simpl.
  - by rewrite String.eqb_refl.
  - destruct (String.eqb k k') eqn:E; simpl; rewrite ?E; [done|done].
Qed.

Lemma dict_lookup_set_ne (m : list (string * pyval)) (k k' : string) (v : pyval) :
  k <> k' -> dict_lookup (dict_set m k v) k' = dict_lookup m k'.
Proof.
  intros Hne. induction m as [|[j w] m IH]; simpl.
  - destruct (String.eqb k' k) eqn:E; [apply String.eqb_eq in E; congruence|done].
  - destruct (String.eqb k j) eqn:E; simpl.
    + apply String.eqb_eq in E; subst j.
      destruct (String.eqb k' k) eqn:E'; [apply String.eqb_eq in E'; congruence|done].
    + by rewrite IH.
Qed.

Lemma dict_set_keys (m : list (string * pyval)) (k : string) (v : pyval) :
  NoDup (map fst m) -> NoDup (map fst (dict_set m k v)).
Proof.
  induction m as [|[j w] m IH]; simpl; intros Hnd.
  - constructor; [set_solver|constructor].
  - apply NoDup_cons in Hnd as [Hj Hnd].
    destruct (String.eqb k j) eqn:E; simpl; constructor; auto.
    intros Hin. apply list_elem_of_In, in_map_iff in Hin as [[j' w'] [Heq Hin]].
    simpl in Heq; subst j'.
    assert (Hl : dict_lookup (dict_set m k v) j = dict_lookup m j).
    { apply dict_lookup_set_ne. apply String.eqb_neq in E. done. }
    assert (Hsome : is_Some (dict_lookup (dict_set m k v) j)).
    { clear -Hin. induction (dict_set m k v) as [|[a b] r IHr]; [done|].
      simpl in *. destruct (String.eqb j a) eqn:Ej; [done|].
      destruct Hin as [Hin|Hin]; [inversion Hin; subst; by rewrite String.eqb_refl in Ej|].
      by apply IHr. }
    rewrite Hl in Hsome. apply Hj.
    clear -Hsome. induction m as [|[a b] r IHr]; simpl in *; [by destruct Hsome|].
    destruct (String.eqb j a) eqn:Ej; [apply String.eqb_eq in Ej; subst; left|right; auto].
Qed.

Lemma dict_lookup_In (m : list (string * pyval)) (k : string) (v : pyval) :
  NoDup (map fst m) -> In (k, v) m -> dict_lookup m k = Some v.
Proof.
  induction m as [|[j w] m IH]; simpl; intros Hnd Hin; [done|].
  apply NoDup_cons in Hnd as [Hj Hnd].
  destruct Hin as [Heq|Hin].
  - inversion Heq; subst. by rewrite String.eqb_refl.
  - destruct (String.eqb k j) eqn:E; [|by apply IH].
    apply String.eqb_eq in E; subst j. exfalso. apply Hj.
    apply list_elem_of_In, in_map_iff. by exists (k, v).
Qed.

Lemma dict_lookup_notin (m : list (string * pyval)) (k : string) :
  k ∉ map fst m -> dict_lookup m k = None.
Proof.
  induction m as [|[j w] m IH]; simpl; intros Hk; [done|].
  destruct (String.eqb k j) eqn:E.
  - apply String.eqb_eq in E; subst. set_solver.
  - apply IH. set_solver.
Qed.

Lemma fold_dict_set_other (l m : list (string * pyval)) (k : string) :
  k ∉ map fst l ->
  dict_lookup (fold_left (fun acc kv => dict_set acc kv.1 kv.2) l m) k = dict_lookup m k.
Proof.
  revert m. induction l as [|[j w] l IH]; simpl; intros m Hk; [done|].
  rewrite IH by set_solver. apply dict_lookup_set_ne. set_solver.
Qed.

(** The last operand of [{**a, **b}] wins on a shared key. *)
Lemma fold_dict_set_last (l m : list (string * pyval)) (k : string) (v : pyval) :
  NoDup (map fst l) -> dict_lookup l k = Some v ->
  dict_lookup (fold_left (fun acc kv => dict_set acc kv.1 kv.2) l m) k = Some v.
Proof.
  revert m. induction l as [|[j w] l IH]; simpl; intros m Hnd Hl; [done|].
  apply NoDup_cons in Hnd as [Hj Hnd].
  destruct (String.eqb k j) eqn:E.
  - apply String.eqb_eq in E; subst j. inversion Hl; subst w.
    rewrite fold_dict_set_other by done. apply dict_lookup_set_eq.
  - by apply IH.
Qed.

Lemma fold_dict_set_keys (l m : list (string * pyval)) :
  NoDup (map fst m) -> NoDup (map fst (fold_left (fun acc kv => dict_set acc kv.1 kv.2) l m)).
Proof.
  revert m. induction l as [|[j w] l IH]; simpl; intros m Hnd; [done|].
  apply IH. by apply dict_set_keys.
Qed.

(** A loop whose body only appends a warning when a test holds. *)
Lemma mfor_warn_when {A} (P : A -> bool) (g : A -> msg) (l : list A) (es ws : list msg) :
  mfor (fun x => when (P x) (warning (g x))) l (es, ws) =
  ((es, ws ++ map g (filter (fun x => P x = true) l)), Ok tt).
Proof.
  revert ws. induction l as [|x l IH]; intros ws; simpl.
  - by rewrite app_nil_r.
  - munfold. destruct (P x) eqn:E; simpl.
    + rewrite IH, filter_cons_True by done. by rewrite <- app_assoc.
    + rewrite IH, filter_cons_False by congruence. done.
Qed.

(** C10: a key defined in both [data] and [stringData] is checked with its
    [stringData] value only; if that value has no [CHANGE_ME], no Warning
    names the key, whatever [data] holds for it. *)
Theorem validate_secret_stringdata_wins (f k : string)
  (d data sdata : list (string * pyval)) (v1 v2 : pyval) :
  dict_lookup d "data" = Some (PDict data) ->
  dict_lookup d "stringData" = Some (PDict sdata) ->
  NoDup (map fst sdata) ->
  dict_lookup data k = Some v1 -> str_contains "CHANGE_ME" (py_str v1) = true ->
  dict_lookup sdata k = Some v2 -> str_contains "CHANGE_ME" (py_str v2) = false ->
  exists ws, run_validator (validate_secret f (PDict d)) = Ok ([], ws) /\
             MSecretPlaceholder f k ∉ ws.
Proof.
  intros Hd Hs Hnd _ _ Hv2 Hno.
  unfold run_validator, validate_secret, dict_merge. munfold.
  rewrite !py_get_dict, Hd, Hs. simpl.
  set (all := fold_left (fun acc kv => dict_set acc kv.1 kv.2) (data ++ sdata) []).
  rewrite (mfor_warn_when (fun kv => py_truthy kv.2 && str_contains "CHANGE_ME" (py_str kv.2))
             (fun kv => MSecretPlaceholder f kv.1)).
  eexists. split; [reflexivity|]. simpl.
  assert (Hall : dict_lookup all k = Some v2).
  { unfold all. rewrite fold_left_app. by apply fold_dict_set_last. }
  assert (Hnd_all : NoDup (map fst all)).
  { apply fold_dict_set_keys. constructor. }
  intros Hin. apply list_elem_of_In, in_map_iff in Hin as [[k' x] [Heq Hin]].
  simpl in Heq. inversion Heq; subst k'.
  apply list_elem_of_In, list_elem_of_filter in Hin as [Htest Hin]. simpl in Htest.
  rewrite (dict_lookup_In all k x) in Hall by (try apply list_elem_of_In; done). inversion Hall; subst x.
  rewrite Hno in Htest. by rewrite andb_false_r in Htest.
Qed.

(** ** Services: duplicate port names *)

Lemma py_hash_str (n : pyval) (s : string) : py_hash n = Ok (HStr s) -> n = PStr s.
Proof. destruct n; simpl; intros H; inversion H; done. Qed.

Lemma check_ports_spec (f : string) (ps : list pyval) :
  forall (S : gset hkey) es ws s' r,
  check_ports f S ps (es, ws) = (s', Ok r) ->
  exists names,
    s' = (es ++ map (MDuplicatePort f) names, ws) /\
    Forall (fun n => py_truthy n = true) names /\
    forall s, s <> "" ->
      length (filter (fun n => py_eq n (PStr s) = true) names) =
      length (filter (fun p => py_eq (port_name_of p) (PStr s) = true) ps) -
      (if bool_decide (HStr s ∈ S) then 0 else 1).
Proof.
  induction ps as [|p ps IH]; intros S es ws s' r H.
  - simpl in H. munfold. inversion H; subst. exists [].
    split; [by rewrite app_nil_r|]. split; [constructor|]. intros s _. simpl. lia.
  - simpl in H. munfold.
    destruct p as [| | | | |m]; simpl in H; try discriminate.
    set (n := default PNone (dict_lookup m "name")) in *.
    destruct (py_truthy n) eqn:Ht.
    + destruct (py_hash n) as [h|e] eqn:Hh; [|discriminate].
      destruct (bool_decide (h ∈ S)) eqn:Hb; simpl in H.
      * apply IH in H as (names & -> & Hf & Hc).
        exists (n :: names). split; [by rewrite <- app_assoc|].
        split; [by constructor|]. intros s Hs. specialize (Hc s Hs).
        rewrite !filter_cons. simpl. fold n.
        apply bool_decide_eq_true in Hb.
        destruct (py_eq n (PStr s)) eqn:Eq.
        -- pose proof Eq as Eq'. apply py_eq_str_r in Eq'. rewrite Eq' in Hh.
           simpl in Hh. inversion Hh; subst h.
           rewrite !decide_True by done. simpl.
           rewrite bool_decide_true in Hc by set_solver.
           rewrite bool_decide_true by done. lia.
        -- rewrite !decide_False by congruence.
           assert (h <> HStr s).
           { intros ->. apply py_hash_str in Hh. rewrite Hh in Eq.
             simpl in Eq. by rewrite String.eqb_refl in Eq. }
           rewrite Hc, (bool_decide_ext (HStr s ∈ {[h]} ∪ S) (HStr s ∈ S)) by set_solver. done.
      * apply IH in H as (names & -> & Hf & Hc).
        exists names. split; [done|]. split; [done|]. intros s Hs. specialize (Hc s Hs).
        rewrite !filter_cons. simpl. fold n.
        apply bool_decide_eq_false in Hb.
        destruct (py_eq n (PStr s)) eqn:Eq.
        -- pose proof Eq as Eq'. apply py_eq_str_r in Eq'. rewrite Eq' in Hh.
           simpl in Hh. inversion Hh; subst h.
           rewrite decide_True by done. simpl.
           rewrite bool_decide_true in Hc by set_solver.
           rewrite bool_decide_false by done. lia.
        -- rewrite decide_False by congruence.
           assert (h <> HStr s).
           { intros ->. apply py_hash_str in Hh. rewrite Hh in Eq.
             simpl in Eq. by rewrite String.eqb_refl in Eq. }
           rewrite Hc, (bool_decide_ext (HStr s ∈ {[h]} ∪ S) (HStr s ∈ S)) by set_solver. done.
    + apply IH in H as (names & -> & Hf & Hc).
      exists names. split; [done|]. split; [done|]. intros s Hs. specialize (Hc s Hs).
      rewrite filter_cons. simpl. fold n.
      rewrite decide_False; [done|]. rewrite py_eq_str_r. intros ->.
      simpl in Ht. apply Hs. destruct (String.eqb s "") eqn:E; [by apply String.eqb_eq|done].
Qed.

(** The Errors of the ports loop, counted per hash key of the name. *)
Lemma check_ports_keys (f : string) (ps : list pyval) :
  forall (S : gset hkey) es ws s' r,
  check_ports f S ps (es, ws) = (s', Ok r) ->
  exists names,
    s' = (es ++ map (MDuplicatePort f) names, ws) /\
    Forall (fun n => py_truthy n = true /\ is_Some (name_key n)) names /\
    forall h,
      length (filter (fun n => name_key n = Some h) names) =
      length (filter (fun p => port_key p = Some h) ps) - (if bool_decide (h ∈ S) then 0 else 1).
Proof.
  induction ps as [|p ps IH]; intros S es ws s' r H.
  - simpl in H. munfold. inversion H; subst. exists [].
    split; [by rewrite app_nil_r|]. split; [constructor|]. intros h. simpl. lia.
  - simpl in H. munfold.
    destruct p as [| | | | |m]; simpl in H; try discriminate.
    set (n := default PNone (dict_lookup m "name")) in *.
    assert (Hpk : port_key (PDict m) = if py_truthy n then name_key n else None) by reflexivity.
    destruct (py_truthy n) eqn:Ht.
    + destruct (py_hash n) as [h0|e] eqn:Hh; [|discriminate].
      assert (Hk : name_key n = Some h0) by (unfold name_key; by rewrite Hh).
      rewrite Hk in Hpk.
      destruct (bool_decide (h0 ∈ S)) eqn:Hb; simpl in H;
        apply IH in H as (names & -> & Hf & Hc).
      * exists (n :: names). split; [by rewrite <- app_assoc|].
        split; [constructor; [split; [done|by rewrite Hk]|done]|].
        intros h. specialize (Hc h). apply bool_decide_eq_true in Hb. rewrite !filter_cons. destruct (decide (h = h0)) as [->|Hne]; revert Hc; repeat case_decide; simpl; intros Hc; try congruence; try set_solver; lia.
      * exists names. split; [done|]. split; [done|].
        intros h. specialize (Hc h). apply bool_decide_eq_false in Hb. rewrite !filter_cons. destruct (decide (h = h0)) as [->|Hne]; revert Hc; repeat case_decide; simpl; intros Hc; try congruence; try set_solver; lia.
    + apply IH in H as (names & -> & Hf & Hc).
      exists names. split; [done|]. split; [done|]. intros h. specialize (Hc h).
      simpl in Hpk. rewrite filter_cons, decide_False by congruence. done.
Qed.

Lemma filter_none_key (ps : list pyval) (h : hkey) :
  Forall (fun p => port_key p = None) ps -> filter (fun p => port_key p = Some h) ps = [].
Proof.
  induction 1 as [|p ps Hp _ IH]; [done|].
  rewrite filter_cons_False by congruence. done.
Qed.

(** C2: the Errors of [validate_service] are one duplicate-name Error per
    port whose name was already seen: for every hash key [h] of a name
    (strings, integers, booleans and None alike), [n] ports whose truthy
    name has key [h] give [n - 1] Errors naming a value of key [h]; a port
    without a truthy name never gives one, and a Service whose ports all
    lack one gets no such Error. *)
Theorem validate_service_duplicate_ports (f : string) (d sp : list (string * pyval))
  (ps : list pyval) (errs ws : list msg) :
  default (PDict []) (dict_lookup d "spec") = PDict sp ->
  default (PList []) (dict_lookup sp "ports") = PList ps ->
  run_validator (validate_service f (PDict d)) = Ok (errs, ws) ->
  exists names,
    errs = map (MDuplicatePort f) names /\
    Forall (fun n => py_truthy n = true /\ is_Some (name_key n)) names /\
    (forall h,
      length (filter (fun n => name_key n = Some h) names) =
      length (filter (fun p => port_key p = Some h) ps) - 1) /\
    (Forall (fun p => port_key p = None) ps -> errs = []).
Proof.
  intros Hspec Hports H.
  unfold run_validator, validate_service in H. munfold.
  rewrite py_get_dict, Hspec in H. cbv beta iota in H.
  rewrite !py_get_dict, Hports in H. simpl in H.
  set (c := negb (py_eq _ (PStr "None")) && _) in H.
  assert (Hrun : exists ws0, check_ports f ∅ ps ([], ws0) = ((errs, ws), Ok tt)).
  { destruct c; simpl in H;
      match type of H with
      | match check_ports f ∅ ps ?st with _ => _ end = _ =>
          exists st.2; destruct (check_ports f ∅ ps st) as [st' [[]|e]] eqn:E;
          inversion H; subst; done
      end. }
  destruct Hrun as [ws0 Hrun].
  apply check_ports_keys in Hrun as (names & Heq & Hf & Hc).
  inversion Heq; subst.
  assert (Hc' : forall h, length (filter (fun n => name_key n = Some h) names) =
                          length (filter (fun p => port_key p = Some h) ps) - 1).
  { intros h. rewrite Hc. by rewrite bool_decide_false by set_solver. }
  exists names. split; [done|]. split; [done|]. split; [done|].
  intros Hnone. destruct names as [|n names]; [done|].
  apply Forall_cons in Hf as [[_ [h Hk]] _].
  specialize (Hc' h). rewrite filter_none_key in Hc' by done.
  rewrite filter_cons, Hk, decide_True in Hc' by done. simpl in Hc'. lia.
Qed.

(** ** Deployments: selector and template labels *)

Section only_appends.
Variable P : msg -> Prop.

Lemma oa_ret {A} (a : A) : only_appends P (mret a).
Proof. intros es ws s' r H. inversion H; subst. exists []. by rewrite app_nil_r. Qed.

Lemma oa_lift {A} (r0 : res A) : only_appends P (lift r0).
Proof. intros es ws s' r H. inversion H; subst. exists []. by rewrite app_nil_r. Qed.

Lemma oa_warning (x : msg) : only_appends P (warning x).
Proof. intros es ws s' r H. inversion H; subst. exists []. by rewrite app_nil_r. Qed.

Lemma oa_error (x : msg) : P x -> only_appends P (error x).
Proof. intros Hx es ws s' r H. inversion H; subst. exists [x]. split; [done|by constructor]. Qed.

Lemma oa_bind {A B} (m : M A) (k : A -> M B) :
  only_appends P m -> (forall a, only_appends P (k a)) -> only_appends P (mbind k m).
Proof.
  intros Hm Hk es ws s' r H. unfold mbind, M_mbind, M_bind in H.
  destruct (m (es, ws)) as [[es1 ws1] [a|e]] eqn:E.
  - destruct (Hm _ _ _ _ E) as (x1 & Hx1 & Hf1). simpl in Hx1.
    destruct (Hk a _ _ _ _ H) as (x2 & Hx2 & Hf2).
    exists (x1 ++ x2). rewrite Hx2, Hx1, app_assoc. split; [done|]. by apply Forall_app.
  - inversion H; subst. destruct (Hm _ _ _ _ E) as (x1 & Hx1 & Hf1). by exists x1.
Qed.

Lemma oa_when (b : bool) (m : M unit) : only_appends P m -> only_appends P (when b m).
Proof. intros Hm. destruct b; [done|apply oa_ret]. Qed.

Lemma oa_mfor {A} (body : A -> M unit) (l : list A) :
  (forall x, only_appends P (body x)) -> only_appends P (mfor body l).
Proof.
  intros Hb. induction l as [|x l IH]; simpl; [apply oa_ret|].
  apply oa_bind; [apply Hb|intros _; apply IH].
Qed.
End only_appends.

Ltac oa_solve :=
  repeat first
    [ apply oa_bind; [|intros ?]
    | apply oa_when
    | apply oa_lift
    | apply oa_ret
    | apply oa_warning
    | apply oa_error; eexists; reflexivity
    | match goal with |- only_appends _ (if ?b then _ else _) => destruct b end ].

(** The container checks only add "runs as privileged" Errors. *)
Lemma check_container_errors (f : string) (c : pyval) :
  only_appends (fun e => exists n, e = MPrivileged f n) (check_container f c).
Proof. unfold check_container. oa_solve. Qed.

Lemma check_selector_dict (f : string) (tl items : list (string * pyval)) es ws :
  check_selector f (PDict tl) items (es, ws) =
  ((es ++ map (fun kv => MSelectorMismatch f kv.1 kv.2)
               (filter (fun kv => py_eq (default PNone (dict_lookup tl kv.1)) kv.2 = false) items),
    ws), Ok tt).
Proof.
  revert es. induction items as [|[k v] items IH]; intros es; simpl.
  - by rewrite app_nil_r.
  - munfold. simpl. destruct (py_eq (default PNone (dict_lookup tl k)) v) eqn:E; simpl.
    + rewrite IH, filter_cons_False by (cbn [fst snd]; by rewrite E). done.
    + rewrite IH, filter_cons_True by (cbn [fst snd]; by rewrite E). simpl.
      by rewrite <- app_assoc.
Qed.

Lemma selector_count_absent (f k : string) (tl ml : list (string * pyval)) :
  k ∉ map fst ml ->
  length (filter (fun e => selector_error_key e = Some k)
    (map (fun kv => MSelectorMismatch f kv.1 kv.2)
       (filter (fun kv => py_eq (default PNone (dict_lookup tl kv.1)) kv.2 = false) ml))) = 0.
Proof.
  induction ml as [|[k' v'] ml IH]; simpl; intros Hk; [done|].
  rewrite filter_cons. case_decide; simpl; [|apply IH; set_solver].
  rewrite filter_cons_False; [apply IH; set_solver|]. simpl. intros Heq.
  inversion Heq; subst. set_solver.
Qed.

Lemma selector_count (f k : string) (tl ml : list (string * pyval)) :
  NoDup (map fst ml) ->
  length (filter (fun e => selector_error_key e = Some k)
    (map (fun kv => MSelectorMismatch f kv.1 kv.2)
       (filter (fun kv => py_eq (default PNone (dict_lookup tl kv.1)) kv.2 = false) ml))) =
  match dict_lookup ml k with
  | Some v => if py_eq (default PNone (dict_lookup tl k)) v then 0 else 1
  | None => 0
  end.
Proof.
  induction ml as [|[k' v'] ml IH]; simpl; intros Hnd; [done|].
  apply NoDup_cons in Hnd as [Hk' Hnd].
  destruct (String.eqb k k') eqn:E.
  - apply String.eqb_eq in E; subst k'.
    rewrite filter_cons. case_decide as Hmis; cbn [fst snd] in Hmis; simpl.
    + rewrite filter_cons_True by done. simpl. rewrite Hmis.
      rewrite selector_count_absent by done. done.
    + assert (Hv : py_eq (default PNone (dict_lookup tl k)) v' = true)
        by (destruct (py_eq _ _); congruence).
      rewrite Hv. by apply selector_count_absent.
  - rewrite filter_cons. case_decide; simpl; [|by apply IH].
    rewrite filter_cons_False; [by apply IH|]. simpl. intros Heq. inversion Heq; subst.
    by rewrite String.eqb_refl in E.
Qed.

Lemma py_truthy_dict (m : list (string * pyval)) : m <> [] -> py_truthy (PDict m) = true.
Proof. destruct m; [done|reflexivity]. Qed.

(** With both label mappings non-empty, the Errors of [validate_deployment]
    are the selector mismatches, in selector order, then privileged-container
    Errors. *)
Lemma validate_deployment_selector_split (f : string) (d sp tp md sl ml tl : list (string * pyval)) errs ws :
  default (PDict []) (dict_lookup d "spec") = PDict sp ->
  default (PDict []) (dict_lookup sp "template") = PDict tp ->
  default (PDict []) (dict_lookup tp "metadata") = PDict md ->
  default (PDict []) (dict_lookup sp "selector") = PDict sl ->
  dict_lookup sl "matchLabels" = Some (PDict ml) ->
  dict_lookup md "labels" = Some (PDict tl) ->
  ml <> [] -> tl <> [] ->
  run_validator (validate_deployment f (PDict d)) = Ok (errs, ws) ->
  exists extra,
    errs = map (fun kv => MSelectorMismatch f kv.1 kv.2)
             (filter (fun kv => py_eq (default PNone (dict_lookup tl kv.1)) kv.2 = false) ml)
           ++ extra /\ Forall (fun e => exists n, e = MPrivileged f n) extra.
Proof.
  intros Hsp Htp Hmd Hsl Hml Htl Hml0 Htl0 Hrun.
  unfold run_validator, validate_deployment in Hrun. munfold.
  rewrite py_get_dict, Hsp in Hrun. cbv beta iota in Hrun.
  rewrite !py_get_dict, Htp in Hrun. cbv beta iota in Hrun.
  rewrite !py_get_dict, Hmd in Hrun. cbv beta iota in Hrun.
  rewrite !py_get_dict, Htl in Hrun. cbv beta iota in Hrun.
  rewrite Hsl, py_get_dict, Hml in Hrun. cbv beta iota in Hrun.
  set (ps := default (PDict []) (dict_lookup tp "spec")) in Hrun.
  unfold default, id in Hrun. cbv beta iota in Hrun. rewrite !(py_truthy_dict tl), (py_truthy_dict ml) in Hrun by done.
  munfold. cbv beta iota in Hrun. simpl in Hrun. rewrite check_selector_dict in Hrun.
  destruct (py_get ps "containers" (PList []))
    as [cs0|e]; [|discriminate].
  destruct (py_iter cs0) as [cs|e]; [|discriminate].
  match type of Hrun with
  | context [mfor ?b ?l ?s0] => destruct (mfor b l s0) as [s' r] eqn:Hm
  end.
  destruct r as [u|e]; [|discriminate]. inversion Hrun; subst s'.
  destruct (oa_mfor _ (check_container f) cs (check_container_errors f) _ _ _ _ Hm)
    as (extra & Hx & Hf).
  exists extra. split; [done|exact Hf].
Qed.

Lemma privileged_no_selector_key (f k : string) (extra : list msg) :
  Forall (fun e => exists n, e = MPrivileged f n) extra ->
  filter (fun e => selector_error_key e = Some k) extra = [].
Proof.
  induction 1 as [|e extra [n ->] _ IH]; [done|].
  rewrite filter_cons_False; [done|]. simpl. discriminate.
Qed.

(** C1 (amended): when [spec.selector.matchLabels] and
    [spec.template.metadata.labels] are both non-empty mappings, each
    selector pair [(k, v)] whose template value ([None] when absent) differs
    from [v] gives exactly one Error; it names [k] and the selector value [v]
    only; agreeing or non-selector keys give none. *)
Theorem validate_deployment_selector_errors (f : string) (d sp tp md sl ml tl : list (string * pyval)) errs ws :
  default (PDict []) (dict_lookup d "spec") = PDict sp ->
  default (PDict []) (dict_lookup sp "template") = PDict tp ->
  default (PDict []) (dict_lookup tp "metadata") = PDict md ->
  default (PDict []) (dict_lookup sp "selector") = PDict sl ->
  dict_lookup sl "matchLabels" = Some (PDict ml) ->
  dict_lookup md "labels" = Some (PDict tl) ->
  ml <> [] -> tl <> [] -> NoDup (map fst ml) ->
  run_validator (validate_deployment f (PDict d)) = Ok (errs, ws) ->
  (forall k,
     length (filter (fun e => selector_error_key e = Some k) errs) =
     match dict_lookup ml k with
     | Some v => if py_eq (default PNone (dict_lookup tl k)) v then 0 else 1
     | None => 0
     end) /\
  (forall k v, MSelectorMismatch f k v ∈ errs ->
     dict_lookup ml k = Some v /\ py_eq (default PNone (dict_lookup tl k)) v = false).
Proof.
  intros Hsp Htp Hmd Hsl Hml Htl Hml0 Htl0 Hnd Hrun.
  destruct (validate_deployment_selector_split f d sp tp md sl ml tl errs ws
              Hsp Htp Hmd Hsl Hml Htl Hml0 Htl0 Hrun) as (extra & -> & Hf).
  split.
  - intros k. rewrite filter_app, length_app, (privileged_no_selector_key f k extra Hf).
    rewrite selector_count by done. simpl. lia.
  - intros k v Hin. apply elem_of_app in Hin as [Hin|Hin].
    + apply list_elem_of_In in Hin.
      destruct (proj1 (in_map_iff _ _ _) Hin) as ([k' v'] & Heq & Hin').
      simpl in Heq. inversion Heq; subst k' v'.
      apply list_elem_of_In, list_elem_of_filter in Hin' as [Hmis Hin']. simpl in Hmis.
      split; [|done]. apply dict_lookup_In; [done|]. by apply list_elem_of_In.
    + rewrite Forall_forall in Hf. destruct (Hf _ Hin) as [n Hn]. discriminate.
Qed.

(** ** The cross-file label check *)

Lemma scan_app_labels_lookup (name j : string) (docs : list pyval) (m : gmap string (gset hkey)) :
  default ∅ (scan_app_labels name docs m !! j) =
  if String.eqb j name then default ∅ (m !! name) ∪ file_labels docs else default ∅ (m !! j).
Proof.
  revert m. induction docs as [|doc docs IH]; intros m; simpl.
  - destruct (String.eqb_spec j name); subst; set_solver.
  - destruct doc; [by apply IH|..];
    (destruct (app_label_of _) as [a|e];
     [|destruct (String.eqb_spec j name); subst; set_solver]);
    (destruct (py_truthy a); [|by apply IH]);
    (destruct (py_hash a) as [h|e]; [rewrite IH|];
     destruct (String.eqb_spec j name); subst;
     first [rewrite lookup_insert_eq; simpl; set_solver
           | rewrite lookup_insert_ne by congruence; done]).
Qed.

Lemma fold_label_scan_lookup (L : list file) (m : gmap string (gset hkey)) (j : string) :
  default ∅ (fold_left label_scan L m !! j) = default ∅ (m !! j) ∪ ⋃ (map (labels_at j) L).
Proof.
  revert m. induction L as [|fl L IH]; intros m; simpl; [set_solver|].
  rewrite IH. unfold label_scan, labels_at, scanned_labels.
  destruct (is_manifest fl); [|destruct (String.eqb j (fname fl)); set_solver].
  destruct (fcontent fl) as [docs|e]; [|destruct (String.eqb j (fname fl)); set_solver].
  rewrite scan_app_labels_lookup.
  destruct (String.eqb_spec j (fname fl)); subst; set_solver.
Qed.

Lemma elem_of_union_map {A} (g : A -> gset hkey) (L : list A) (x : hkey) :
  x ∈ ⋃ (map g L) <-> exists a, In a L /\ x ∈ g a.
Proof.
  rewrite elem_of_union_list. split.
  - intros (X & HX & Hx). apply list_elem_of_In, in_map_iff in HX as (a & <- & Ha). by exists a.
  - intros (a & Ha & Hx). exists (g a). split; [|done].
    apply list_elem_of_In, in_map_iff. by exists a.
Qed.

Lemma elem_of_map_values (m : gmap string (gset hkey)) (x : hkey) :
  x ∈ ⋃ (map snd (map_to_list m)) <-> exists k, x ∈ default ∅ (m !! k).
Proof.
  rewrite elem_of_union_map. split.
  - intros ([k X] & Hin & Hx). apply list_elem_of_In, elem_of_map_to_list in Hin.
    exists k. by rewrite Hin.
  - intros (k & Hx). destruct (m !! k) as [X|] eqn:E; [|set_solver].
    exists (k, X). split; [|done]. by apply list_elem_of_In, elem_of_map_to_list.
Qed.

Lemma all_app_labels_union (L : list file) :
  all_app_labels L = ⋃ (map scanned_labels L).
Proof.
  apply set_eq. intros x. unfold all_app_labels.
  rewrite elem_of_map_values, elem_of_union_map. split.
  - intros (k & Hx). rewrite fold_label_scan_lookup, lookup_empty in Hx. simpl in Hx.
    apply elem_of_union in Hx as [Hx|Hx]; [set_solver|].
    apply elem_of_union_map in Hx as (fl & Hin & Hx). unfold labels_at in Hx.
    destruct (String.eqb k (fname fl)); [by exists fl|set_solver].
  - intros (fl & Hin & Hx). exists (fname fl).
    rewrite fold_label_scan_lookup, lookup_empty. simpl.
    apply elem_of_union_r, elem_of_union_map. exists fl. split; [done|].
    unfold labels_at. by rewrite String.eqb_refl.
Qed.

(** C5 (amended): the cross-file check never reports an Error, and reports
    one Warning, carrying the count, iff the union over the scanned files of
    their distinct truthy [app] labels has more than 5 elements; a file is
    read up to its first document that raises, and kustomization.yaml is
    skipped. *)
Theorem check_label_consistency_threshold (L : list file) :
  check_label_consistency L =
  ([], if 5 <? size (⋃ (map scanned_labels L))
       then [MTooManyApps (size (⋃ (map scanned_labels L)))] else []).
Proof. unfold check_label_consistency. rewrite all_app_labels_union. by destruct (5 <? _). Qed.

(** ** The baseline Secret rule *)

(** C7 (amended): in a file other than [kustomization.yaml], a Secret
    document whose [metadata] (if present) supports [in] gets the "no data"
    Error exactly once when [data] and [stringData] are both [None] (absent
    or null) and never otherwise; an empty mapping is not [None]. *)
Theorem baseline_doc_secret_no_data (fl : file) (i : nat) (d : list (string * pyval)) es ws :
  is_manifest fl = true ->
  default (PStr "") (dict_lookup d "kind") = PStr "Secret" ->
  (forall md, dict_lookup d "metadata" = Some md -> exists b, py_in "name" md = Ok b) ->
  exists extra,
    baseline_doc fl i (PDict d) (es, ws) = ((es ++ extra, ws), Ok tt) /\
    filter (fun e => is_secret_no_data e = true) extra =
      (if is_none (default PNone (dict_lookup d "data")) &&
          is_none (default PNone (dict_lookup d "stringData"))
       then [MSecretNoData (fpath fl)] else []).
Proof.
  intros Hman Hk Hmd.
  unfold baseline_doc. munfold. rewrite py_get_dict, Hk. simpl.
  unfold is_manifest in Hman. apply negb_true_iff in Hman. rewrite Hman. munfold.
  destruct (dict_lookup d "metadata") as [md|] eqn:Em.
  - destruct (Hmd md eq_refl) as [b Hb]. simpl. rewrite Hb.
    destruct (bool_decide (is_Some (dict_lookup d "apiVersion")));
    destruct (bool_decide (is_Some (dict_lookup d "kind")));
    destruct b; destruct (is_none (default PNone (dict_lookup d "data")));
    destruct (is_none (default PNone (dict_lookup d "stringData"))); simpl;
    first [ exists []; split; [by rewrite app_nil_r|reflexivity]
          | eexists; split; [rewrite <- ?app_assoc; reflexivity|reflexivity] ].
  - simpl.
    destruct (bool_decide (is_Some (dict_lookup d "apiVersion")));
    destruct (bool_decide (is_Some (dict_lookup d "kind")));
    destruct (is_none (default PNone (dict_lookup d "data")));
    destruct (is_none (default PNone (dict_lookup d "stringData"))); simpl;
    first [ exists []; split; [by rewrite app_nil_r|reflexivity]
          | eexists; split; [rewrite <- ?app_assoc; reflexivity|reflexivity] ].
Qed.

(** ** The reports of both validators *)

(** The loop of [main]: the printed blocks, all Errors, and the Warnings of
    the files without Errors. *)
Lemma report_files_spec (validate : file -> list msg * list msg) files out ae aw :
  report_files validate files out ae aw =
  (out ++ concat (map (file_block validate) files),
   ae ++ flat_map (fun fl => (validate fl).1) files,
   aw ++ flat_map (counted_warnings validate) files).
Proof.
  revert out ae aw. induction files as [|fl files IH]; intros out ae aw; simpl.
  - by rewrite !app_nil_r.
  - unfold file_block at 1, counted_warnings at 1.
    destruct (validate fl) as [[|e es] [|w ws]]; simpl; rewrite IH; by rewrite <- !app_assoc.
Qed.

Lemma flat_map_length_perm {A B} (g : A -> list B) (l1 l2 : list A) :
  l1 ≡ₚ l2 -> length (flat_map g l1) = length (flat_map g l2).
Proof.
  induction 1; simpl; rewrite ?length_app; try lia.
Qed.

Lemma union_map_perm {A} (g : A -> gset hkey) (l1 l2 : list A) :
  l1 ≡ₚ l2 -> ⋃ (map g l1) = ⋃ (map g l2).
Proof.
  intros Hp. apply set_eq. intros x. rewrite !elem_of_union_map.
  split; intros (a & Ha & Hx); exists a; split; try done.
  - by apply (Permutation_in a Hp).
  - by apply (Permutation_in a (Permutation_sym Hp)).
Qed.

Lemma sorted_files_perm (l1 l2 : list file) :
  (forall a b, a ∈ l1 -> b ∈ l1 -> fname a = fname b -> a = b) ->
  l1 ≡ₚ l2 -> sorted_files l1 = sorted_files l2.
Proof.
  intros Hinj Hp. unfold sorted_files.
  apply (Sorted_unique_strong file_le); try (apply Sorted_merge_sort; apply _).
  - intros a b Ha Hb Hab Hba. apply Hinj.
    + apply list_elem_of_In, (Permutation_in a (merge_sort_Permutation file_le l1)).
      by apply list_elem_of_In.
    + apply list_elem_of_In, (Permutation_in b (Permutation_sym Hp)).
      apply (Permutation_in b (merge_sort_Permutation file_le l2)).
      by apply list_elem_of_In.
    + unfold file_le in *. by apply (anti_symm String.le).
  - etransitivity; [apply merge_sort_Permutation|].
    etransitivity; [exact Hp|]. symmetry. apply merge_sort_Permutation.
Qed.

Lemma sorted_files_Permutation (l : list file) : sorted_files l ≡ₚ l.
Proof. apply merge_sort_Permutation. Qed.

(** C6 (amended): the exit status of the advanced validator is 1 iff the
    files it checks have at least one Error between them; the baseline one
    behaves the same when the [k8s] directory exists and holds a file, and
    exits with 1 otherwise. Warnings never change the status. *)
Theorem exit_status_errors (b : bool) (L : list file) :
  (main_advanced L).2 =
    (if Nat.eqb (length (flat_map (fun fl => (validate_advanced fl).1) (filter is_manifest L))) 0
     then 0 else 1)%Z /\
  (main_baseline b L).2 =
    (if b then
       match L with
       | [] => 1
       | _ :: _ =>
           if Nat.eqb (length (flat_map (fun fl => (validate_yaml_file fl).1) L)) 0 then 0 else 1
       end
     else 1)%Z.
Proof.
  split.
  - unfold main_advanced. rewrite report_files_spec. cbn zeta iota beta.
    unfold check_label_consistency. cbn zeta.
    rewrite <- (flat_map_length_perm _ _ _ (sorted_files_Permutation (filter is_manifest L))).
    destruct (5 <? size (all_app_labels L)); cbn zeta iota beta;
    (destruct (flat_map (fun fl => (validate_advanced fl).1) (sorted_files (filter is_manifest L)));
      [|reflexivity]); simpl;
    destruct (flat_map (counted_warnings validate_advanced) _); reflexivity.
  - unfold main_baseline. destruct b; [|reflexivity]. destruct L as [|fl L]; [reflexivity|].
    cbn [negb]. rewrite report_files_spec. cbn zeta iota beta.
    rewrite <- (flat_map_length_perm _ _ _ (sorted_files_Permutation (fl :: L))).
    destruct (flat_map (fun fl => (validate_yaml_file fl).1) (sorted_files (fl :: L)));
      [|reflexivity].
    simpl. destruct (flat_map (counted_warnings validate_yaml_file) _); reflexivity.
Qed.

(** The summary line with the Warning total. *)
Lemma summary_has_warnings n AE AW :
  In ("  Warnings: " ++ pretty (length AW))%string (summary_lines n AE AW).
Proof. simpl. tauto. Qed.

Ltac summary_in :=
  repeat (apply in_or_app; first [solve [left; apply summary_has_warnings] | right]).

(** C9 (amended): each validator prints the header, then one block per file
    in sorted order (an erroring file's block holds only its Error lines),
    then lines whose summary counts the Warnings of the zero-Error files,
    plus, in the advanced validator, those of the label consistency check. *)
Theorem summary_warning_count (L : list file) :
  (exists header tail,
     (main_advanced L).1 =
       header :: concat (map (file_block validate_advanced) (sorted_files (filter is_manifest L))) ++ tail /\
     In ("  Warnings: " ++ pretty (length (flat_map (counted_warnings validate_advanced) (filter is_manifest L)) +
                                   length (check_label_consistency L).2))%string tail) /\
  (L <> [] ->
   exists header tail,
     (main_baseline true L).1 =
       header :: concat (map (file_block validate_yaml_file) (sorted_files L)) ++ tail /\
     In ("  Warnings: " ++ pretty (length (flat_map (counted_warnings validate_yaml_file) L)))%string tail).
Proof.
  split.
  - unfold main_advanced. rewrite report_files_spec. cbn zeta iota beta.
    destruct (check_label_consistency L) as [errs ws]. cbn zeta iota beta. cbn [snd].
    rewrite <- (flat_map_length_perm (counted_warnings validate_advanced) _ _
               (sorted_files_Permutation (filter is_manifest L))).
    rewrite <- length_app, !app_nil_l.
    remember (flat_map (fun fl => (validate_advanced fl).1)
                (sorted_files (filter is_manifest L)) ++ errs) as AE.
    remember (flat_map (counted_warnings validate_advanced)
                (sorted_files (filter is_manifest L)) ++ ws) as AW.
    destruct AE, AW; (eexists _, _; split; [simpl; rewrite <- ?app_assoc; reflexivity|]);
    summary_in.
  - intros HL. destruct L as [|fl L]; [done|]. unfold main_baseline. cbn [negb].
    rewrite report_files_spec. cbn zeta iota beta.
    rewrite <- (flat_map_length_perm (counted_warnings validate_yaml_file) _ _
                 (sorted_files_Permutation (fl :: L))), !app_nil_l.
    remember (flat_map (fun fl => (validate_yaml_file fl).1) (sorted_files (fl :: L))) as AE.
    remember (flat_map (counted_warnings validate_yaml_file) (sorted_files (fl :: L))) as AW.
    destruct AE, AW; (eexists _, _; split; [simpl; rewrite <- ?app_assoc; reflexivity|]);
    summary_in.
Qed.

Lemma fname_inj (L : list file) (a b : file) :
  NoDup (map fname L) -> a ∈ L -> b ∈ L -> fname a = fname b -> a = b.
Proof.
  induction L as [|c L IH]; simpl; intros Hnd Ha Hb Hab; [set_solver|].
  apply NoDup_cons in Hnd as [Hc Hnd].
  apply elem_of_cons in Ha as [->|Ha]; apply elem_of_cons in Hb as [->|Hb]; try done.
  - destruct Hc. rewrite Hab. apply list_elem_of_In, in_map, list_elem_of_In, Hb.
  - destruct Hc. rewrite <- Hab. apply list_elem_of_In, in_map, list_elem_of_In, Ha.
  - by apply IH.
Qed.

(** C8 (amended): the reports of both validators depend only on the set of
    files (names and contents), not on the order the directory lists them
    in, and the per-file blocks follow the lexicographic order of names. *)
Theorem report_deterministic (b : bool) (L1 L2 : list file) :
  L1 ≡ₚ L2 -> NoDup (map fname L1) ->
  main_advanced L1 = main_advanced L2 /\
  main_baseline b L1 = main_baseline b L2 /\
  Sorted (fun x y => String.le (fname x) (fname y)) (sorted_files L1).
Proof.
  intros Hp Hnd.
  assert (Hs : forall P : file -> bool, sorted_files (filter P L1) = sorted_files (filter P L2)).
  { intros P. apply sorted_files_perm; [|by apply filter_Permutation].
    intros x y Hx Hy. apply list_elem_of_filter in Hx as [_ Hx].
    apply list_elem_of_filter in Hy as [_ Hy]. by apply (fname_inj L1). }
  assert (Hc : check_label_consistency L1 = check_label_consistency L2).
  { unfold check_label_consistency. rewrite !all_app_labels_union.
    by rewrite (union_map_perm scanned_labels L1 L2 Hp). }
  split; [|split].
  - unfold main_advanced.
    rewrite (Permutation_length (filter_Permutation _ _ _ Hp)).
    by rewrite Hs, Hc.
  - unfold main_baseline. destruct b; [|done].
    assert (Hs' : sorted_files L1 = sorted_files L2).
    { apply sorted_files_perm; [|done]. intros x y Hx Hy. by apply (fname_inj L1). }
    destruct L1 as [|x L1], L2 as [|y L2].
    + done.
    + by apply Permutation_nil in Hp.
    + symmetry in Hp. by apply Permutation_nil in Hp.
    + cbn [negb]. rewrite (Permutation_length Hp). by rewrite Hs'.
  - apply Sorted_merge_sort. apply _.
Qed.

(** ** Further properties of the validators *)

Lemma oa_weaken (P Q : msg -> Prop) {A} (m : M A) :
  (forall e, P e -> Q e) -> only_appends P m -> only_appends Q m.
Proof.
  intros HPQ Hm es ws s' r H. destruct (Hm _ _ _ _ H) as (x & Hx & Hf).
  exists x. split; [done|]. eapply Forall_impl; [exact Hf|exact HPQ].
Qed.

Lemma check_selector_errors (f : string) (tl : pyval) (items : list (string * pyval)) :
  only_appends (fun e => exists k v, e = MSelectorMismatch f k v) (check_selector f tl items).
Proof.
  induction items as [|[k v] items IH]; simpl; [apply oa_ret|].
  apply oa_bind; [apply oa_lift|intros got].
  apply oa_bind; [|intros _; exact IH].
  apply oa_when, oa_error. by exists k, v.
Qed.

(** Every Error of [validate_deployment] is a selector mismatch or a privileged container of the same file. *)
Theorem validate_deployment_error_kinds (f : string) (doc : pyval) errs ws :
  run_validator (validate_deployment f doc) = Ok (errs, ws) ->
  Forall (deployment_error f) errs.
Proof.
  intros H. unfold run_validator in H.
  destruct (validate_deployment f doc ([], [])) as [s' r] eqn:E. destruct r; [|discriminate].
  inversion H; subst s'.
  assert (Hoa : only_appends (deployment_error f) (validate_deployment f doc)).
  { unfold validate_deployment.
    repeat (apply oa_bind; [apply oa_lift|intros ?]).
    apply oa_bind; [apply oa_when, oa_warning|intros _].
    repeat (apply oa_bind; [apply oa_lift|intros ?]).
    apply oa_bind.
    - apply oa_when. apply oa_bind; [apply oa_lift|intros ?].
      eapply oa_weaken; [|apply check_selector_errors]. intros e He. by left.
    - intros _. repeat (apply oa_bind; [apply oa_lift|intros ?]).
      apply oa_mfor. intros c. eapply oa_weaken; [|apply check_container_errors].
      intros e He. by right. }
  destruct (Hoa _ _ _ _ E) as (x & Hx & Hf). simpl in Hx. by subst.
Qed.

Lemma check_container_dict (f : string) (c rs sc : list (string * pyval)) (img : string) es ws :
  default (PDict []) (dict_lookup c "resources") = PDict rs ->
  default (PDict []) (dict_lookup c "securityContext") = PDict sc ->
  default (PStr "") (dict_lookup c "image") = PStr img ->
  let name := default (PStr "unnamed") (dict_lookup c "name") in
  check_container f (PDict c) (es, ws) =
  ((es ++ (if py_truthy (default PNone (dict_lookup sc "privileged")) then [MPrivileged f name] else []),
    ws ++ (if str_contains ":latest" img || negb (str_contains ":" img) then [MLatestTag f name] else [])
       ++ (if py_truthy (default PNone (dict_lookup rs "limits")) then [] else [MNoLimits f name])
       ++ (if py_truthy (default PNone (dict_lookup rs "requests")) then [] else [MNoRequests f name])
       ++ (if py_truthy (default PNone (dict_lookup sc "runAsNonRoot")) then [] else [MNoRunAsNonRoot f name])
       ++ (if py_truthy (default PNone (dict_lookup sc "readOnlyRootFilesystem")) then []
           else [MNoReadOnlyRoot f name])),
   Ok tt).
Proof.
  intros Hrs Hsc Himg name. unfold check_container. munfold.
  rewrite !py_get_dict, Himg. cbv beta iota. simpl.
  rewrite Hrs, Hsc. simpl. fold name.
  destruct (str_contains ":latest" img); simpl;
  [|destruct (str_contains ":" img); simpl];
  destruct (py_truthy (default PNone (dict_lookup rs "limits")));
  destruct (py_truthy (default PNone (dict_lookup rs "requests")));
  destruct (py_truthy (default PNone (dict_lookup sc "privileged")));
  destruct (py_truthy (default PNone (dict_lookup sc "runAsNonRoot")));
  destruct (py_truthy (default PNone (dict_lookup sc "readOnlyRootFilesystem")));
  simpl; rewrite <- ?app_assoc; rewrite ?app_nil_r; reflexivity.
Qed.

(** A container whose image contains ":" but not ":latest", with resource limits and requests, not privileged, and with runAsNonRoot and readOnlyRootFilesystem set adds no finding. *)
Theorem check_container_clean (f : string) (c rs sc : list (string * pyval)) (img : string) es ws :
  default (PDict []) (dict_lookup c "resources") = PDict rs ->
  default (PDict []) (dict_lookup c "securityContext") = PDict sc ->
  default (PStr "") (dict_lookup c "image") = PStr img ->
  str_contains ":" img = true -> str_contains ":latest" img = false ->
  py_truthy (default PNone (dict_lookup rs "limits")) = true ->
  py_truthy (default PNone (dict_lookup rs "requests")) = true ->
  py_truthy (default PNone (dict_lookup sc "privileged")) = false ->
  py_truthy (default PNone (dict_lookup sc "runAsNonRoot")) = true ->
  py_truthy (default PNone (dict_lookup sc "readOnlyRootFilesystem")) = true ->
  check_container f (PDict c) (es, ws) = ((es, ws), Ok tt).
Proof.
  intros Hrs Hsc Himg H1 H2 H3 H4 H5 H6 H7.
  rewrite (check_container_dict f c rs sc img es ws Hrs Hsc Himg); simpl.
  rewrite H1, H2, H3, H4, H5, H6, H7. simpl. by rewrite !app_nil_r.
Qed.

(** The image-tag Warning of a container is emitted iff its image contains ":latest" or contains no ":"; a missing image counts as the empty string. *)
Theorem check_container_tag_warning (f : string) (c rs sc : list (string * pyval)) (img : string) :
  default (PDict []) (dict_lookup c "resources") = PDict rs ->
  default (PDict []) (dict_lookup c "securityContext") = PDict sc ->
  default (PStr "") (dict_lookup c "image") = PStr img ->
  MLatestTag f (default (PStr "unnamed") (dict_lookup c "name")) ∈
    (check_container f (PDict c) ([], [])).1.2 <->
  str_contains ":latest" img = true \/ str_contains ":" img = false.
Proof.
  intros Hrs Hsc Himg.
  rewrite (check_container_dict f c rs sc img [] [] Hrs Hsc Himg). simpl.
  destruct (str_contains ":latest" img), (str_contains ":" img); simpl;
  repeat case_match; simpl; rewrite list_elem_of_In; simpl; intuition congruence.
Qed.

(** The Warnings of a Service are exactly the missing-selector Warning, emitted iff clusterIP is not "None" and the selector is falsy; the ports loop adds only Errors. *)
Theorem validate_service_selector_warning (f : string) (d sp : list (string * pyval)) errs ws :
  default (PDict []) (dict_lookup d "spec") = PDict sp ->
  run_validator (validate_service f (PDict d)) = Ok (errs, ws) ->
  ws = (if py_eq (default PNone (dict_lookup sp "clusterIP")) (PStr "None") ||
           py_truthy (default (PDict []) (dict_lookup sp "selector"))
        then [] else [MServiceNoSelector f]).
Proof.
  intros Hspec H.
  unfold run_validator, validate_service in H. munfold.
  rewrite py_get_dict, Hspec in H. cbv beta iota in H.
  rewrite !py_get_dict in H. cbv beta iota in H.
  destruct (py_eq (default PNone (dict_lookup sp "clusterIP")) (PStr "None"));
  destruct (py_truthy (default (PDict []) (dict_lookup sp "selector"))); simpl in H |- *;
  (destruct (py_iter (default (PList []) (dict_lookup sp "ports"))) as [ps|e]; [|discriminate]);
  match type of H with
  | match check_ports f ∅ ps ?st with _ => _ end = _ =>
      destruct (check_ports f ∅ ps st) as [st' [[]|e]] eqn:E; [|discriminate]
  end;
  inversion H; subst; apply check_ports_spec in E as (names & Heq & _);
  by inversion Heq.
Qed.

Lemma within_ret {A} (a : A) : within 0 0 (mret a).
Proof. intros es ws s' r H. inversion H. exists [], []. split; [by rewrite !app_nil_r|simpl; lia]. Qed.

Lemma within_lift {A} (r0 : res A) : within 0 0 (lift r0).
Proof. intros es ws s' r H. inversion H. exists [], []. split; [by rewrite !app_nil_r|simpl; lia]. Qed.

Lemma within_warning (x : msg) : within 0 1 (warning x).
Proof. intros es ws s' r H. inversion H. exists [], [x]. split; [by rewrite !app_nil_r|simpl; lia]. Qed.

Lemma within_mono {A} (a b c d : nat) (m : M A) :
  a <= c -> b <= d -> within a b m -> within c d m.
Proof.
  intros Hac Hbd Hm es ws s' r H. destruct (Hm _ _ _ _ H) as (e' & w' & -> & He & Hw).
  exists e', w'. split; [done|lia].
Qed.

Lemma within_bind {A B} (a b c d : nat) (m : M A) (k : A -> M B) :
  within a b m -> (forall x, within c d (k x)) -> within (a + c) (b + d) (mbind k m).
Proof.
  intros Hm Hk es ws s' r H. unfold mbind, M_mbind, M_bind in H.
  destruct (m (es, ws)) as [[es1 ws1] [x|e]] eqn:E.
  - destruct (Hm _ _ _ _ E) as (e1 & w1 & Heq & He1 & Hw1). inversion Heq; subst.
    destruct (Hk x _ _ _ _ H) as (e2 & w2 & -> & He2 & Hw2).
    exists (e1 ++ e2), (w1 ++ w2). rewrite !app_assoc, !length_app. split; [done|lia].
  - inversion H; subst. destruct (Hm _ _ _ _ E) as (e1 & w1 & -> & He1 & Hw1).
    exists e1, w1. split; [done|lia].
Qed.

Lemma within_when (a b : nat) (c : bool) (m : M unit) : within a b m -> within a b (when c m).
Proof. intros Hm. destruct c; [done|]. eapply within_mono; [| |apply within_ret]; lia. Qed.

Lemma within_mfor {A} (a b : nat) (body : A -> M unit) (l : list A) :
  (forall x, within a b (body x)) -> within (length l * a) (length l * b) (mfor body l).
Proof.
  intros Hb. induction l as [|x l IH]; simpl; [apply within_ret|].
  apply within_bind; [apply Hb|intros _; apply IH].
Qed.

Lemma check_rule_within (f : string) (rule : pyval) : within 0 1 (check_rule f rule).
Proof.
  unfold check_rule. apply (within_bind 0 0 0 1); [apply within_lift|intros host].
  destruct (negb (py_truthy host)); [apply within_warning|].
  apply (within_bind 0 0 0 1); [apply within_lift|intros p].
  apply within_when, within_warning.
Qed.

Lemma within_lift_ok {A B} (a b : nat) (x : A) (k : A -> M B) :
  within a b (k x) -> within a b (mbind k (lift (Ok x))).
Proof. intros Hk es ws s' r H. exact (Hk _ _ _ _ H). Qed.

(** An Ingress yields no Error and at most one Warning for TLS plus one per rule. *)
Theorem validate_ingress_findings_bound (f : string) (d sp : list (string * pyval)) rs errs ws :
  default (PDict []) (dict_lookup d "spec") = PDict sp ->
  py_iter (default (PList []) (dict_lookup sp "rules")) = Ok rs ->
  run_validator (validate_ingress f (PDict d)) = Ok (errs, ws) ->
  errs = [] /\ length ws <= 1 + length rs.
Proof.
  intros Hspec Hrs H.
  assert (Hw : within 0 (1 + length rs) (validate_ingress f (PDict d))).
  { unfold validate_ingress. rewrite py_get_dict, Hspec.
    apply within_lift_ok. cbv beta. rewrite py_get_dict.
    apply within_lift_ok. cbv beta.
    apply (within_bind 0 1 0 (length rs)); [apply within_when, within_warning|intros _].
    apply within_lift_ok. cbv beta. rewrite Hrs. apply within_lift_ok. cbv beta.
    eapply within_mono; [| |apply (within_mfor 0 1)]; [lia|lia|apply check_rule_within]. }
  unfold run_validator in H.
  destruct (validate_ingress f (PDict d) ([], [])) as [s' [[]|e]] eqn:E; [|discriminate].
  inversion H; subst s'.
  destruct (Hw _ _ _ _ E) as (e' & w' & Heq & He & Hw').
  inversion Heq; subst. simpl in *. split; [destruct e'; simpl in *; [done|lia]|lia].
Qed.

Lemma py_eq_str (s : string) (v : pyval) : py_eq (PStr s) v = true <-> v = PStr s.
Proof.
  destruct v; simpl; try (split; [discriminate|congruence]).
  rewrite String.eqb_eq. split; congruence.
Qed.

Lemma existsb_py_eq_str (s : string) (l : list pyval) :
  existsb (py_eq (PStr s)) l = true <-> PStr s ∈ l.
Proof.
  rewrite existsb_exists, list_elem_of_In. split.
  - intros (x & Hx & He). apply py_eq_str in He. by subst.
  - intros Hin. exists (PStr s). split; [done|]. by apply py_eq_str.
Qed.

(** A NetworkPolicy whose policyTypes is a list yields no Error, and one Warning iff the list holds neither "Ingress" nor "Egress". *)
Theorem validate_network_policy_types (f : string) (d sp : list (string * pyval)) (l : list pyval) :
  default (PDict []) (dict_lookup d "spec") = PDict sp ->
  default (PList []) (dict_lookup sp "policyTypes") = PList l ->
  exists ws, run_validator (validate_network_policy f (PDict d)) = Ok ([], ws) /\
    (ws = [] \/ ws = [MNetpolNoTypes f]) /\
    (ws = [] <-> PStr "Ingress" ∈ l \/ PStr "Egress" ∈ l).
Proof.
  intros Hspec Hpt. unfold run_validator, validate_network_policy. munfold.
  rewrite py_get_dict, Hspec. cbv beta iota. rewrite py_get_dict, Hpt. cbn [py_in].
  pose proof (existsb_py_eq_str "Ingress" l) as HI. pose proof (existsb_py_eq_str "Egress" l) as HE.
  destruct (existsb (py_eq (PStr "Ingress")) l), (existsb (py_eq (PStr "Egress")) l); simpl.
  - exists []. intuition.
  - exists []. intuition.
  - exists []. intuition.
  - exists [MNetpolNoTypes f]. intuition congruence.
Qed.

(** An explicit null policyTypes makes the [in] test raise a TypeError. *)
Theorem validate_network_policy_null_types (f : string) (d sp : list (string * pyval)) :
  default (PDict []) (dict_lookup d "spec") = PDict sp ->
  dict_lookup sp "policyTypes" = Some PNone ->
  run_validator (validate_network_policy f (PDict d)) =
  Exc (TypeError "argument of type 'NoneType' is not iterable").
Proof.
  intros Hspec Hpt. unfold run_validator, validate_network_policy. munfold.
  rewrite py_get_dict, Hspec. cbv beta iota. rewrite py_get_dict, Hpt. reflexivity.
Qed.

Lemma NoDup_map_fst_filter (P : string * pyval -> Prop) `{forall x, Decision (P x)}
  (m : list (string * pyval)) :
  NoDup (map fst m) -> NoDup (map fst (filter P m)).
Proof.
  induction m as [|[k v] m IH]; simpl; intros Hnd; [constructor|].
  apply NoDup_cons in Hnd as [Hk Hnd].
  destruct (decide (P (k, v))).
  - rewrite filter_cons_True by done. simpl. constructor; [|by apply IH].
    intros Hin. apply Hk. apply list_elem_of_In in Hin. apply list_elem_of_In.
    apply in_map_iff in Hin as ([k' v'] & Heq & Hin). simpl in Heq. subst k'.
    apply in_map_iff. exists (k, v'). split; [done|].
    apply list_elem_of_In, list_elem_of_filter in Hin. apply list_elem_of_In. by destruct Hin.
  - rewrite filter_cons_False by done. by apply IH.
Qed.

(** A Secret yields no Error, and its placeholder Warnings name pairwise distinct keys. *)
Theorem validate_secret_distinct_keys (f : string) (doc : pyval) errs ws :
  run_validator (validate_secret f doc) = Ok (errs, ws) ->
  errs = [] /\ exists ks, ws = map (MSecretPlaceholder f) ks /\ NoDup ks.
Proof.
  intros H. unfold run_validator, validate_secret in H.
  unfold mbind, M_mbind, M_bind, lift in H.
  destruct (py_get doc "data" (PDict [])) as [data|e]; [|discriminate].
  destruct (py_get doc "stringData" (PDict [])) as [sdata|e]; [|discriminate].
  destruct (dict_merge data sdata) as [all|e] eqn:Em; [|discriminate].
  rewrite (mfor_warn_when (fun kv => py_truthy kv.2 && str_contains "CHANGE_ME" (py_str kv.2))
             (fun kv => MSecretPlaceholder f kv.1)) in H.
  inversion H; subst errs ws. split; [done|].
  exists (map fst (filter (fun kv => (py_truthy kv.2 && str_contains "CHANGE_ME" (py_str kv.2)) = true) all)).
  split; [by rewrite map_map|].
  apply NoDup_map_fst_filter.
  unfold dict_merge in Em. destruct (dict_unpack data); [|discriminate].
  destruct (dict_unpack sdata); [|discriminate]. simpl in Em. inversion Em.
  apply fold_dict_set_keys. constructor.
Qed.

(** A Secret with an explicit null data field makes the merge [{**data, **stringData}] raise a TypeError. *)
Theorem advanced_doc_secret_null_data (f : string) (d : list (string * pyval)) :
  dict_lookup d "kind" = Some (PStr "Secret") ->
  dict_lookup d "data" = Some PNone ->
  advanced_doc f (PDict d) = Exc (TypeError "'NoneType' object is not a mapping").
Proof.
  intros Hk Hd. unfold advanced_doc. rewrite py_get_dict, Hk. simpl.
  unfold run_validator, validate_secret. munfold.
  rewrite !py_get_dict, Hd. reflexivity.
Qed.

(** An HPA with a string minReplicas and a numeric maxReplicas makes the comparison raise a TypeError. *)
Theorem advanced_doc_hpa_str_min (f : string) (d sp : list (string * pyval)) (s : string) (mx : pyval) (z : Z) :
  dict_lookup d "kind" = Some (PStr "HorizontalPodAutoscaler") ->
  default (PDict []) (dict_lookup d "spec") = PDict sp ->
  dict_lookup sp "minReplicas" = Some (PStr s) ->
  default (PInt 1) (dict_lookup sp "maxReplicas") = mx -> py_num mx = Some z ->
  advanced_doc f (PDict d) =
  Exc (TypeError ("'>=' not supported between instances of 'str' and '" ++ py_type_name mx ++ "'")%string).
Proof.
  intros Hk Hspec Hmin Hmax Hnum. unfold advanced_doc. rewrite py_get_dict, Hk. simpl.
  unfold run_validator, validate_hpa. munfold.
  rewrite py_get_dict, Hspec. cbv beta iota. rewrite !py_get_dict, Hmin, Hmax. simpl.
  unfold py_ge, py_cmp. destruct mx; simpl in Hnum; try discriminate; reflexivity.
Qed.

Lemma advanced_docs_shift (fl : file) (docs : list pyval) (e w : list msg) :
  advanced_docs fl docs e w =
  (e ++ (advanced_docs fl docs [] []).1, w ++ (advanced_docs fl docs [] []).2).
Proof.
  revert e w. induction docs as [|doc docs IH]; intros e w; simpl.
  - by rewrite !app_nil_r.
  - destruct (advanced_doc (fname fl) doc) as [[e0 w0]|ex]; simpl.
    + rewrite (IH (e ++ e0) (w ++ w0)), (IH e0 w0). simpl. by rewrite <- !app_assoc.
    + by rewrite app_nil_r.
Qed.

Lemma advanced_docs_app (fl : file) (docs1 docs2 : list pyval) (e w : list msg) :
  Forall (fun doc => exists r, advanced_doc (fname fl) doc = Ok r) docs1 ->
  advanced_docs fl (docs1 ++ docs2) e w =
  advanced_docs fl docs2 (advanced_docs fl docs1 e w).1 (advanced_docs fl docs1 e w).2.
Proof.
  revert e w. induction docs1 as [|doc docs1 IH]; intros e w Hok; simpl; [done|].
  apply Forall_cons in Hok as [[r Hr] Hok]. rewrite Hr. destruct r. by apply IH.
Qed.

(** When no document of [docs1] raises, the findings of [docs1 ++ docs2] are those of [docs1] followed by those of [docs2]. *)
Theorem validate_advanced_split (n : string) (docs1 docs2 : list pyval) :
  Forall (fun doc => exists r, advanced_doc n doc = Ok r) docs1 ->
  validate_advanced (mkfile n (Loaded (docs1 ++ docs2))) =
  ((validate_advanced (mkfile n (Loaded docs1))).1 ++ (validate_advanced (mkfile n (Loaded docs2))).1,
   (validate_advanced (mkfile n (Loaded docs1))).2 ++ (validate_advanced (mkfile n (Loaded docs2))).2).
Proof.
  intros Hok. unfold validate_advanced. simpl.
  rewrite (advanced_docs_app (mkfile n (Loaded (docs1 ++ docs2)))) by done.
  rewrite advanced_docs_shift.
  assert (Hf : forall docs l1 l2 e w, advanced_docs (mkfile n l1) docs e w = advanced_docs (mkfile n l2) docs e w).
  { intros docs l1 l2. induction docs as [|d docs IH]; intros e w; simpl; [done|].
    destruct (advanced_doc n d) as [[]|]; [apply IH|done]. }
  by rewrite (Hf docs1 _ (Loaded docs1)), (Hf docs2 _ (Loaded docs2)).
Qed.

(** A document that raises ends the loop: the findings are those of the documents before it, then the "Error validating" message; later documents are not checked. *)
Theorem validate_advanced_exception (n : string) (docs1 : list pyval) (doc : pyval) (docs2 : list pyval) ex :
  Forall (fun doc => exists r, advanced_doc n doc = Ok r) docs1 ->
  advanced_doc n doc = Exc ex ->
  validate_advanced (mkfile n (Loaded (docs1 ++ doc :: docs2))) =
  ((validate_advanced (mkfile n (Loaded docs1))).1 ++ [MValidating ("k8s/" ++ n) ex],
   (validate_advanced (mkfile n (Loaded docs1))).2).
Proof.
  intros Hok Hex. unfold validate_advanced. simpl.
  rewrite (advanced_docs_app (mkfile n (Loaded (docs1 ++ doc :: docs2)))) by done.
  simpl. rewrite Hex. unfold fpath. simpl.
  assert (Hf : forall docs l1 l2 e w, advanced_docs (mkfile n l1) docs e w = advanced_docs (mkfile n l2) docs e w).
  { intros docs l1 l2. induction docs as [|d docs IH]; intros e w; simpl; [done|].
    destruct (advanced_doc n d) as [[]|]; [apply IH|done]. }
  by rewrite (Hf docs1 _ (Loaded docs1)).
Qed.

Lemma all_app_labels_manifests (L : list file) :
  all_app_labels L = all_app_labels (filter (fun fl => is_manifest fl = true) L).
Proof.
  rewrite !all_app_labels_union. induction L as [|fl L IH]; simpl; [done|].
  destruct (is_manifest fl) eqn:E.
  - rewrite filter_cons_True by done. simpl. by rewrite IH.
  - rewrite filter_cons_False by congruence. unfold scanned_labels at 1. rewrite E, IH. set_solver.
Qed.

(** The label check depends only on the manifests of the listing, up to order: kustomization.yaml is ignored. *)
Theorem check_label_consistency_manifests (L1 L2 : list file) :
  filter (fun fl => is_manifest fl = true) L1 ≡ₚ filter (fun fl => is_manifest fl = true) L2 ->
  check_label_consistency L1 = check_label_consistency L2.
Proof.
  intros Hp. unfold check_label_consistency.
  rewrite (all_app_labels_manifests L1), (all_app_labels_manifests L2), !all_app_labels_union.
  by rewrite (union_map_perm scanned_labels _ _ Hp).
Qed.

(** Adding files to the listing never removes the label Warning. *)
Theorem check_label_consistency_app (L L' : list file) :
  (check_label_consistency L).2 <> [] -> (check_label_consistency (L ++ L')).2 <> [].
Proof.
  unfold check_label_consistency. rewrite !all_app_labels_union, map_app, union_list_app.
  intros H. destruct (5 <? size (⋃ map scanned_labels L)) eqn:E; [|done]. simpl.
  apply Nat.ltb_lt in E.
  assert (Hs : size (⋃ map scanned_labels L) <= size (⋃ map scanned_labels L ∪ ⋃ map scanned_labels L')).
  { apply subseteq_size. set_solver. }
  destruct (Nat.ltb_spec 5 (size (⋃ map scanned_labels L ∪ ⋃ map scanned_labels L'))); [done|lia].
Qed.

Lemma bind_lift_ok {A B} (x : A) (k : A -> M B) : mbind k (lift (Ok x)) = k x.
Proof. reflexivity. Qed.

Lemma error_then_in {B} (x : msg) (k : M B) es ws s' r :
  only_appends (fun _ => True) k -> (error x ;; k) (es, ws) = (s', r) -> x ∈ s'.1.
Proof.
  intros Hk H. unfold mbind, M_mbind, M_bind, error in H. simpl in H.
  destruct (Hk _ _ _ _ H) as (extra & Hx & _). rewrite Hx.
  apply list_elem_of_In. apply in_or_app. left. apply in_or_app. right. by left.
Qed.

Lemma baseline_doc_oa (fl : file) (i : nat) (doc : pyval) : only_appends (fun _ => True) (baseline_doc fl i doc).
Proof. unfold baseline_doc, branch. destruct doc; oa_solve. Qed.

Lemma baseline_docs_oa (fl : file) (i : nat) (docs : list pyval) :
  only_appends (fun _ => True) (baseline_docs fl i docs).
Proof.
  revert i. induction docs as [|doc docs IH]; intros i; simpl; [apply oa_ret|].
  apply oa_bind; [apply baseline_doc_oa|intros _; apply IH].
Qed.

Lemma baseline_docs_app (fl : file) (i : nat) (l1 l2 : list pyval) s :
  baseline_docs fl i (l1 ++ l2) s = (baseline_docs fl i l1;; baseline_docs fl (i + length l1) l2) s.
Proof.
  revert i s. induction l1 as [|doc l1 IH]; intros i s; simpl.
  - by rewrite Nat.add_0_r.
  - munfold. destruct (baseline_doc fl i doc s) as [s1 [[]|e]]; [|done].
    rewrite IH. munfold. by rewrite Nat.add_succ_r.
Qed.

Lemma baseline_docs_cons (fl : file) (i : nat) (doc : pyval) (rest : list pyval) :
  baseline_docs fl i (doc :: rest) = (baseline_doc fl i doc;; baseline_docs fl (S i) rest).
Proof. reflexivity. Qed.

Lemma baseline_docs_pass (fl : file) (i : nat) (docs : list pyval) s :
  fname fl = "kustomization.yaml" ->
  Forall (fun doc => doc = PNone \/ exists m, doc = PDict m) docs ->
  baseline_docs fl i docs s = (s, Ok tt).
Proof.
  intros Hn. revert i s. induction docs as [|doc docs IH]; intros i s Hd; simpl; [done|].
  apply Forall_cons in Hd as [Hdoc Hd].
  destruct Hdoc as [->|[m ->]]; simpl; munfold.
  - by apply IH.
  - rewrite Hn, orb_true_r. simpl. by apply IH.
Qed.

(** A kustomization.yaml file whose documents are all mappings or empty yields no finding. *)
Theorem validate_yaml_file_kustomization (fl : file) (docs : list pyval) :
  fname fl = "kustomization.yaml" -> fcontent fl = Loaded docs -> docs <> [] ->
  Forall (fun doc => doc = PNone \/ exists m, doc = PDict m) docs ->
  validate_yaml_file fl = ([], []).
Proof.
  intros Hn Hc Hne Hd. unfold validate_yaml_file. rewrite Hc.
  destruct docs as [|doc docs]; [done|].
  by rewrite baseline_docs_pass.
Qed.

(** A first document that is neither empty nor a mapping makes [doc.get] raise, reported as the only Error. *)
Theorem validate_yaml_file_scalar_doc (fl : file) (v : pyval) (rest : list pyval) :
  fcontent fl = Loaded (v :: rest) -> v <> PNone -> (forall m, v <> PDict m) ->
  validate_yaml_file fl =
  ([MReading (fpath fl) (AttributeError ("'" ++ py_type_name v ++ "' object has no attribute 'get'")%string)], []).
Proof.
  intros Hc Hn Hm. unfold validate_yaml_file. rewrite Hc. simpl. munfold.
  destruct v; try done; [..|exfalso; by eapply Hm]; reflexivity.
Qed.

(** A mapping without apiVersion, kind and metadata, outside kustomization.yaml, yields exactly the three missing-field Errors, with its index. *)
Theorem baseline_doc_bare_mapping (fl : file) (i : nat) (d : list (string * pyval)) es ws :
  String.eqb (fname fl) "kustomization.yaml" = false ->
  dict_lookup d "apiVersion" = None -> dict_lookup d "kind" = None ->
  dict_lookup d "metadata" = None ->
  baseline_doc fl i (PDict d) (es, ws) =
  ((es ++ [MMissingApiVersion i (fpath fl); MMissingKind i (fpath fl); MMissingMetadata i (fpath fl)], ws), Ok tt).
Proof.
  intros Hn Ha Hk Hm. unfold baseline_doc. munfold.
  rewrite py_get_dict, Hk. simpl. rewrite Hn. simpl.
  rewrite Ha, Hk, Hm. simpl. by rewrite <- !app_assoc.
Qed.

(** The missing-apiVersion Error of a document carries its position in the file, empty documents included, and survives any later exception. *)
Theorem validate_yaml_file_doc_index (fl : file) (docs1 : list pyval) (d : list (string * pyval)) (docs2 : list pyval) :
  fcontent fl = Loaded (docs1 ++ PDict d :: docs2) ->
  (baseline_docs fl 0 docs1 ([], [])).2 = Ok tt ->
  String.eqb (fname fl) "kustomization.yaml" = false ->
  py_eq (default (PStr "") (dict_lookup d "kind")) (PStr "Kustomization") = false ->
  dict_lookup d "apiVersion" = None ->
  MMissingApiVersion (length docs1) (fpath fl) ∈ (validate_yaml_file fl).1.
Proof.
  intros Hc Hok Hn Hk Ha.
  assert (Hin : forall s' r, baseline_docs fl 0 (docs1 ++ PDict d :: docs2) ([], []) = (s', r) ->
                 MMissingApiVersion (length docs1) (fpath fl) ∈ s'.1).
  { intros s' r H. rewrite baseline_docs_app, Nat.add_0_l in H.
    unfold mbind at 1, M_mbind at 1, M_bind at 1 in H.
    destruct (baseline_docs fl 0 docs1 ([], [])) as [[es1 ws1] r1] eqn:E1.
    simpl in Hok. subst r1.
    change (baseline_docs fl (length docs1) (PDict d :: docs2) (es1, ws1) = (s', r)) in H.
    rewrite baseline_docs_cons in H.
    unfold mbind at 1, M_mbind at 1, M_bind at 1 in H.
    destruct (baseline_doc fl (length docs1) (PDict d) (es1, ws1)) as [[es2 ws2] r2] eqn:E2.
    assert (Hx : MMissingApiVersion (length docs1) (fpath fl) ∈ es2).
    { revert E2. unfold baseline_doc. rewrite (py_get_dict d "kind"), (bind_lift_ok (default (PStr "") (dict_lookup d "kind"))). cbv beta. unfold branch.
      rewrite Hk, Hn. simpl. cbn [py_in]. rewrite Ha. rewrite (bind_lift_ok (bool_decide (is_Some (@None pyval)))). simpl.
      intros E2. change es2 with (es2, ws2).1. eapply error_then_in; [|exact E2].
      unfold branch. oa_solve. }
    destruct r2 as [[]|e].
    - destruct (baseline_docs_oa fl (S (length docs1)) docs2 _ _ _ _ H) as (extra & -> & _).
      simpl. apply list_elem_of_In, in_or_app. left. by apply list_elem_of_In.
    - inversion H; subst. done. }
  unfold validate_yaml_file. rewrite Hc.
  destruct (docs1 ++ PDict d :: docs2) as [|doc0 docs] eqn:Ed; [by destruct docs1|].
  rewrite <- Ed in Hin |- *.
  pose proof (Hin _ _ (surjective_pairing _)) as Hx. clear Hin.
  destruct (baseline_docs fl 0 (docs1 ++ PDict d :: docs2) ([], [])) as [[es ws] [[]|e]];
  simpl in *; [done|].
  apply list_elem_of_In, in_or_app. left. by apply list_elem_of_In.
Qed.

Lemma dict_lookup_None_notin (m : list (string * pyval)) (k : string) :
  dict_lookup m k = None -> k ∉ map fst m.
Proof.
  induction m as [|[j w] m IH]; simpl; intros H; [set_solver|].
  destruct (String.eqb_spec k j); [discriminate|]. set_solver.
Qed.

Lemma fold_dict_set_lookup (l : list (string * pyval)) (k : string) :
  NoDup (map fst l) ->
  dict_lookup (fold_left (fun acc kv => dict_set acc kv.1 kv.2) l []) k = dict_lookup l k.
Proof.
  intros Hnd. destruct (dict_lookup l k) as [v|] eqn:E.
  - by apply fold_dict_set_last.
  - rewrite fold_dict_set_other by by apply dict_lookup_None_notin. done.
Qed.

(** [{**a, **b}] of two dicts has distinct keys and maps each key to its value in [b], or else in [a]. *)
Theorem dict_merge_lookup (ma mb : list (string * pyval)) :
  NoDup (map fst ma) -> NoDup (map fst mb) ->
  exists m, dict_merge (PDict ma) (PDict mb) = Ok m /\ NoDup (map fst m) /\
    forall k, dict_lookup m k =
      match dict_lookup mb k with Some v => Some v | None => dict_lookup ma k end.
Proof.
  intros Ha Hb. eexists. split; [reflexivity|]. split.
  - apply fold_dict_set_keys. constructor.
  - intros k. rewrite fold_left_app.
    destruct (dict_lookup mb k) as [v|] eqn:E.
    + by apply fold_dict_set_last.
    + rewrite fold_dict_set_other by by apply dict_lookup_None_notin.
      by apply fold_dict_set_lookup.
Qed.

(** ** Witnesses: the theorems above applied to concrete documents *)

Lemma validate_service_duplicate_ports_witness :
  run_validator (validate_service "svc.yaml"
    (PDict [("kind", PStr "Service");
            ("spec", PDict [("ports", PList [PDict [("name", PStr "http")]; PDict [("port", PInt 81)];
                                             PDict [("name", PStr "http")]; PDict [("name", PInt 80)];
                                             PDict [("name", PStr "")]; PDict [("name", PStr "http")];
                                             PDict [("name", PInt 80)]])])])) =
  Ok ([MDuplicatePort "svc.yaml" (PStr "http"); MDuplicatePort "svc.yaml" (PStr "http");
       MDuplicatePort "svc.yaml" (PInt 80)],
      [MServiceNoSelector "svc.yaml"]) /\
  exists names,
    [MDuplicatePort "svc.yaml" (PStr "http"); MDuplicatePort "svc.yaml" (PStr "http");
     MDuplicatePort "svc.yaml" (PInt 80)] = map (MDuplicatePort "svc.yaml") names /\
    Forall (fun n => py_truthy n = true /\ is_Some (name_key n)) names /\
    (forall h,
      length (filter (fun n => name_key n = Some h) names) =
      length (filter (fun p => port_key p = Some h)
                [PDict [("name", PStr "http")]; PDict [("port", PInt 81)];
                 PDict [("name", PStr "http")]; PDict [("name", PInt 80)];
                 PDict [("name", PStr "")]; PDict [("name", PStr "http")];
                 PDict [("name", PInt 80)]]) - 1) /\
    (Forall (fun p => port_key p = None)
       [PDict [("name", PStr "http")]; PDict [("port", PInt 81)];
        PDict [("name", PStr "http")]; PDict [("name", PInt 80)];
        PDict [("name", PStr "")]; PDict [("name", PStr "http")];
        PDict [("name", PInt 80)]] ->
     [MDuplicatePort "svc.yaml" (PStr "http"); MDuplicatePort "svc.yaml" (PStr "http");
      MDuplicatePort "svc.yaml" (PInt 80)] = []).
Proof.
  split; [reflexivity|].
  apply (validate_service_duplicate_ports "svc.yaml"
           [("kind", PStr "Service");
            ("spec", PDict [("ports", PList [PDict [("name", PStr "http")]; PDict [("port", PInt 81)];
                                             PDict [("name", PStr "http")]; PDict [("name", PInt 80)];
                                             PDict [("name", PStr "")]; PDict [("name", PStr "http")];
                                             PDict [("name", PInt 80)]])])]
           [("ports", PList [PDict [("name", PStr "http")]; PDict [("port", PInt 81)];
                             PDict [("name", PStr "http")]; PDict [("name", PInt 80)];
                             PDict [("name", PStr "")]; PDict [("name", PStr "http")];
                             PDict [("name", PInt 80)]])]
           _ _ [MServiceNoSelector "svc.yaml"]);
    reflexivity.
Defined.

Lemma advanced_doc_unregistered_kind_witness :
  advanced_doc "cm.yaml" (PDict [("kind", PStr "ConfigMap"); ("data", PNone)]) = Ok ([], []).
Proof.
  apply advanced_doc_unregistered_kind.
  repeat constructor; intros Heq; vm_compute in Heq; discriminate Heq.
Defined.

Lemma validate_hpa_findings_witness :
  run_validator (validate_hpa "hpa.yaml"
    (PDict [("spec", PDict [("minReplicas", PInt 3); ("maxReplicas", PInt 5)])])) = Ok ([], []).
Proof.
  exact (validate_hpa_findings "hpa.yaml"
           [("spec", PDict [("minReplicas", PInt 3); ("maxReplicas", PInt 5)])]
           [("minReplicas", PInt 3); ("maxReplicas", PInt 5)]
           3 5 eq_refl eq_refl eq_refl).
Defined.

Lemma validate_secret_stringdata_wins_witness :
  exists ws,
    run_validator (validate_secret "s.yaml"
      (PDict [("data", PDict [("PASSWORD", PStr "CHANGE_ME")]);
              ("stringData", PDict [("PASSWORD", PStr "s3cret")])])) = Ok ([], ws) /\
    MSecretPlaceholder "s.yaml" "PASSWORD" ∉ ws.
Proof.
  apply (validate_secret_stringdata_wins "s.yaml" "PASSWORD"
           [("data", PDict [("PASSWORD", PStr "CHANGE_ME")]);
            ("stringData", PDict [("PASSWORD", PStr "s3cret")])]
           [("PASSWORD", PStr "CHANGE_ME")] [("PASSWORD", PStr "s3cret")]
           (PStr "CHANGE_ME") (PStr "s3cret")); try reflexivity.
  simpl. apply NoDup_singleton.
Defined.

(** C1, counterexample: the selector asks for [app=x] and the template has no
    labels, so the key is absent there, yet no Error is produced: the check
    only runs when both mappings are non-empty. *)
Lemma validate_deployment_selector_cex :
  run_validator (validate_deployment "d.yaml"
    (PDict [("kind", PStr "Deployment");
            ("spec", PDict [("selector", PDict [("matchLabels", PDict [("app", PStr "x")])])])])) =
  Ok ([], [MTemplateNoLabels "d.yaml"]).
Proof. reflexivity. Qed.

Lemma validate_deployment_selector_errors_witness :
  (forall k,
     length (filter (fun e => selector_error_key e = Some k) [MSelectorMismatch "d.yaml" "app" (PStr "x")]) =
     match dict_lookup [("app", PStr "x"); ("tier", PStr "web")] k with
     | Some v => if py_eq (default PNone (dict_lookup [("app", PStr "y"); ("tier", PStr "web")] k)) v then 0 else 1
     | None => 0
     end) /\
  (forall k v, MSelectorMismatch "d.yaml" k v ∈ [MSelectorMismatch "d.yaml" "app" (PStr "x")] ->
     dict_lookup [("app", PStr "x"); ("tier", PStr "web")] k = Some v /\
     py_eq (default PNone (dict_lookup [("app", PStr "y"); ("tier", PStr "web")] k)) v = false).
Proof.
  apply (validate_deployment_selector_errors "d.yaml"
    [("kind", PStr "Deployment");
     ("spec", PDict [("selector", PDict [("matchLabels", PDict [("app", PStr "x"); ("tier", PStr "web")])]);
                     ("template", PDict [("metadata", PDict [("labels", PDict [("app", PStr "y"); ("tier", PStr "web")])])])])]
    [("selector", PDict [("matchLabels", PDict [("app", PStr "x"); ("tier", PStr "web")])]);
     ("template", PDict [("metadata", PDict [("labels", PDict [("app", PStr "y"); ("tier", PStr "web")])])])]
    [("metadata", PDict [("labels", PDict [("app", PStr "y"); ("tier", PStr "web")])])]
    [("labels", PDict [("app", PStr "y"); ("tier", PStr "web")])]
    [("matchLabels", PDict [("app", PStr "x"); ("tier", PStr "web")])]
    [("app", PStr "x"); ("tier", PStr "web")]
    [("app", PStr "y"); ("tier", PStr "web")]
    [MSelectorMismatch "d.yaml" "app" (PStr "x")] []);
    try reflexivity; try discriminate.
  simpl. repeat constructor; set_solver.
Defined.

(** C7, counterexample: a Secret with neither [data] nor [stringData] in
    [kustomization.yaml] is skipped by the baseline validator, so no "no
    data" Error is reported. *)
Lemma validate_yaml_file_secret_cex :
  validate_yaml_file (mkfile "kustomization.yaml"
    (Loaded [PDict [("apiVersion", PStr "v1"); ("kind", PStr "Secret");
                    ("metadata", PDict [("name", PStr "s")])]])) = ([], []).
Proof. reflexivity. Qed.

Lemma baseline_doc_secret_no_data_witness :
  exists extra,
    baseline_doc (mkfile "s.yaml" (Loaded [])) 0
      (PDict [("apiVersion", PStr "v1"); ("kind", PStr "Secret");
              ("metadata", PDict [("name", PStr "s")]);
              ("data", PDict []); ("stringData", PDict [])]) ([], []) =
      (([] ++ extra, []), Ok tt) /\
    filter (fun e => is_secret_no_data e = true) extra =
      (if is_none (default PNone (dict_lookup [("apiVersion", PStr "v1"); ("kind", PStr "Secret");
              ("metadata", PDict [("name", PStr "s")]);
              ("data", PDict []); ("stringData", PDict [])] "data")) &&
          is_none (default PNone (dict_lookup [("apiVersion", PStr "v1"); ("kind", PStr "Secret");
              ("metadata", PDict [("name", PStr "s")]);
              ("data", PDict []); ("stringData", PDict [])] "stringData"))
       then [MSecretNoData (fpath (mkfile "s.yaml" (Loaded [])))] else []).
Proof.
  apply (baseline_doc_secret_no_data (mkfile "s.yaml" (Loaded [])) 0
    [("apiVersion", PStr "v1"); ("kind", PStr "Secret");
     ("metadata", PDict [("name", PStr "s")]);
     ("data", PDict []); ("stringData", PDict [])] [] []).
  - reflexivity.
  - reflexivity.
  - intros md Hm. simpl in Hm. injection Hm as <-. exists true. reflexivity.
Defined.

(** C6, counterexample: the baseline validator exits with 1 on an empty
    [k8s] directory although no Error was found. *)
Lemma main_baseline_no_files_cex :
  (main_baseline true []).2 = 1%Z /\
  flat_map (fun fl => (validate_yaml_file fl).1) [] = [].
Proof. split; reflexivity. Qed.

(** C8, counterexample: the same contents under two names give different
    findings, since each message names its file. *)
Lemma validate_advanced_name_cex :
  validate_advanced (mkfile "a.yaml" (Loaded [PDict [("kind", PStr "HorizontalPodAutoscaler")]])) <>
  validate_advanced (mkfile "b.yaml" (Loaded [PDict [("kind", PStr "HorizontalPodAutoscaler")]])).
Proof. vm_compute. intros H. inversion H. Qed.

Lemma report_deterministic_witness :
  main_advanced [mkfile "b.yaml" (Loaded [PDict [("kind", PStr "HorizontalPodAutoscaler")]]);
                 mkfile "a.yaml" (Loaded [])] =
  main_advanced [mkfile "a.yaml" (Loaded []);
                 mkfile "b.yaml" (Loaded [PDict [("kind", PStr "HorizontalPodAutoscaler")]])] /\
  main_baseline true [mkfile "b.yaml" (Loaded [PDict [("kind", PStr "HorizontalPodAutoscaler")]]);
                      mkfile "a.yaml" (Loaded [])] =
  main_baseline true [mkfile "a.yaml" (Loaded []);
                      mkfile "b.yaml" (Loaded [PDict [("kind", PStr "HorizontalPodAutoscaler")]])] /\
  Sorted (fun x y => String.le (fname x) (fname y))
    (sorted_files [mkfile "b.yaml" (Loaded [PDict [("kind", PStr "HorizontalPodAutoscaler")]]);
                   mkfile "a.yaml" (Loaded [])]).
Proof.
  apply (report_deterministic true
    [mkfile "b.yaml" (Loaded [PDict [("kind", PStr "HorizontalPodAutoscaler")]]); mkfile "a.yaml" (Loaded [])]
    [mkfile "a.yaml" (Loaded []); mkfile "b.yaml" (Loaded [PDict [("kind", PStr "HorizontalPodAutoscaler")]])]).
  - apply perm_swap.
  - apply (bool_decide_unpack _). vm_compute. exact I.
Defined.

(** C9, counterexample: the only file has an Error, so its own Warning is
    dropped, yet the summary counts one Warning: the label consistency
    Warning for six distinct [app] labels. *)
Lemma check_label_consistency_empty_app_cex :
  NoDup ["a"; "b"; "c"; "d"; "e"; ""] /\
  Forall (fun x => app_label_of (PDict [("metadata", PDict [("labels", PDict [("app", PStr x)])])]) = Ok (PStr x))
    ["a"; "b"; "c"; "d"; "e"; ""] /\
  check_label_consistency
    (map (fun x => mkfile ("app" ++ x ++ ".yaml")
                     (Loaded [PDict [("metadata", PDict [("labels", PDict [("app", PStr x)])])]]))
       ["a"; "b"; "c"; "d"; "e"; ""]) = ([], []).
Proof.
  split; [apply (bool_decide_unpack _); vm_compute; exact I|].
  split; [repeat constructor|]. vm_compute. reflexivity.
Qed.

Lemma summary_warning_count_cex :
  (validate_advanced (mkfile "hpa.yaml" (Loaded
      [PDict [("kind", PStr "HorizontalPodAutoscaler");
         ("metadata", PDict [("labels", PDict [("app", PStr "a1")])]);
         ("spec", PDict [])];
       PDict [("kind", PStr "HorizontalPodAutoscaler");
         ("metadata", PDict [("labels", PDict [("app", PStr "a2")])]);
         ("spec", PDict [("minReplicas", PInt 3); ("maxReplicas", PInt 5)])];
       PDict [("kind", PStr "HorizontalPodAutoscaler");
         ("metadata", PDict [("labels", PDict [("app", PStr "a3")])]);
         ("spec", PDict [("minReplicas", PInt 3); ("maxReplicas", PInt 5)])];
       PDict [("kind", PStr "HorizontalPodAutoscaler");
         ("metadata", PDict [("labels", PDict [("app", PStr "a4")])]);
         ("spec", PDict [("minReplicas", PInt 3); ("maxReplicas", PInt 5)])];
       PDict [("kind", PStr "HorizontalPodAutoscaler");
         ("metadata", PDict [("labels", PDict [("app", PStr "a5")])]);
         ("spec", PDict [("minReplicas", PInt 3); ("maxReplicas", PInt 5)])];
       PDict [("kind", PStr "HorizontalPodAutoscaler");
         ("metadata", PDict [("labels", PDict [("app", PStr "a6")])]);
         ("spec", PDict [("minReplicas", PInt 3); ("maxReplicas", PInt 5)])]]))).1 <> [] /\
  "  Warnings: 1" ∈ (main_advanced [(mkfile "hpa.yaml" (Loaded
      [PDict [("kind", PStr "HorizontalPodAutoscaler");
         ("metadata", PDict [("labels", PDict [("app", PStr "a1")])]);
         ("spec", PDict [])];
       PDict [("kind", PStr "HorizontalPodAutoscaler");
         ("metadata", PDict [("labels", PDict [("app", PStr "a2")])]);
         ("spec", PDict [("minReplicas", PInt 3); ("maxReplicas", PInt 5)])];
       PDict [("kind", PStr "HorizontalPodAutoscaler");
         ("metadata", PDict [("labels", PDict [("app", PStr "a3")])]);
         ("spec", PDict [("minReplicas", PInt 3); ("maxReplicas", PInt 5)])];
       PDict [("kind", PStr "HorizontalPodAutoscaler");
         ("metadata", PDict [("labels", PDict [("app", PStr "a4")])]);
         ("spec", PDict [("minReplicas", PInt 3); ("maxReplicas", PInt 5)])];
       PDict [("kind", PStr "HorizontalPodAutoscaler");
         ("metadata", PDict [("labels", PDict [("app", PStr "a5")])]);
         ("spec", PDict [("minReplicas", PInt 3); ("maxReplicas", PInt 5)])];
       PDict [("kind", PStr "HorizontalPodAutoscaler");
         ("metadata", PDict [("labels", PDict [("app", PStr "a6")])]);
         ("spec", PDict [("minReplicas", PInt 3); ("maxReplicas", PInt 5)])]]))]).1.
Proof.
  split; [vm_compute; discriminate|].
  apply (bool_decide_unpack _). vm_compute. exact I.
Qed.

Lemma summary_warning_count_witness :
  let L := [mkfile "a.yaml" (Loaded [PDict [("apiVersion", PStr "autoscaling/v2"); ("kind", PStr "HorizontalPodAutoscaler");
                                         ("metadata", PDict [("name", PStr "a"); ("labels", PDict [("app", PStr "a1")])]);
                                         ("spec", PDict [("minReplicas", PInt 1); ("maxReplicas", PInt 1)])]]);
            mkfile "b.yaml" (Loaded [PDict [("apiVersion", PStr "autoscaling/v2"); ("kind", PStr "HorizontalPodAutoscaler");
                                         ("metadata", PDict [("name", PStr "b"); ("labels", PDict [("app", PStr "a2")])]);
                                         ("spec", PDict [("minReplicas", PInt 1); ("maxReplicas", PInt 5)])]]);
            mkfile "c.yaml" (Loaded [PDict [("apiVersion", PStr "v1"); ("kind", PStr "Service");
                                         ("metadata", PDict [("name", PStr "c"); ("labels", PDict [("app", PStr "a3")])])]]);
            mkfile "d.yaml" (Loaded [PDict [("apiVersion", PStr "v1"); ("kind", PStr "ConfigMap");
                                         ("metadata", PDict [("name", PStr "d"); ("labels", PDict [("app", PStr "a4")])])]]);
            mkfile "e.yaml" (Loaded [PDict [("apiVersion", PStr "v1"); ("kind", PStr "ConfigMap");
                                         ("metadata", PDict [("name", PStr "e"); ("labels", PDict [("app", PStr "a5")])]);
                                         ("data", PDict [("k", PStr "v")])]]);
            mkfile "f.yaml" (Loaded [PDict [("apiVersion", PStr "v1"); ("kind", PStr "ConfigMap");
                                         ("metadata", PDict [("name", PStr "f"); ("labels", PDict [("app", PStr "a6")])]);
                                         ("data", PDict [("k", PStr "v")])]])] in
  (* a.yaml has an Error and a Warning in the advanced validator, c.yaml in the baseline one *)
  validate_advanced (nth 0 L (mkfile "" (Loaded []))) =
    ([MHpaMinGeMax "a.yaml" (PInt 1) (PInt 1)], [MHpaMinLow "a.yaml" (PInt 1)]) /\
  validate_yaml_file (nth 2 L (mkfile "" (Loaded []))) =
    ([MSvcNoPorts "k8s/c.yaml"], [MSvcNoSelector "k8s/c.yaml"]) /\
  (check_label_consistency L).2 = [MTooManyApps 6] /\
  length (flat_map (counted_warnings validate_advanced) (filter is_manifest L)) = 2 /\
  length (flat_map (counted_warnings validate_yaml_file) L) = 1 /\
  (exists header tail,
     (main_advanced L).1 =
       header :: concat (map (file_block validate_advanced) (sorted_files (filter is_manifest L))) ++ tail /\
     In ("  Warnings: " ++ pretty (length (flat_map (counted_warnings validate_advanced) (filter is_manifest L)) +
                                   length (check_label_consistency L).2))%string tail) /\
  (exists header tail,
     (main_baseline true L).1 =
       header :: concat (map (file_block validate_yaml_file) (sorted_files L)) ++ tail /\
     In ("  Warnings: " ++ pretty (length (flat_map (counted_warnings validate_yaml_file) L)))%string tail).
Proof.
  intros L.
  destruct (summary_warning_count L) as [Hadv Hbase].
  split; [vm_compute; reflexivity|]. split; [vm_compute; reflexivity|].
  split; [vm_compute; reflexivity|]. split; [vm_compute; reflexivity|].
  split; [vm_compute; reflexivity|].
  split; [exact Hadv|]. apply Hbase. discriminate.
Defined.

(** ** Witnesses of the further properties *)

Lemma validate_deployment_error_kinds_witness :
  Forall (deployment_error "d.yaml")
    [MSelectorMismatch "d.yaml" "app" (PStr "a"); MPrivileged "d.yaml" (PStr "c")].
Proof.
  apply (validate_deployment_error_kinds "d.yaml"
    (PDict [("kind", PStr "Deployment");
            ("spec", PDict [("selector", PDict [("matchLabels", PDict [("app", PStr "a")])]);
                            ("template", PDict [("metadata", PDict [("labels", PDict [("app", PStr "b")])]);
                                                ("spec", PDict [("containers", PList [PDict [("name", PStr "c"); ("image", PStr "nginx:1.25");
                                                   ("securityContext", PDict [("privileged", PBool true)])]])])])])])
    _ [MNoLimits "d.yaml" (PStr "c"); MNoRequests "d.yaml" (PStr "c");
       MNoRunAsNonRoot "d.yaml" (PStr "c"); MNoReadOnlyRoot "d.yaml" (PStr "c")]).
  vm_compute. reflexivity.
Defined.

Lemma check_container_clean_witness :
  check_container "d.yaml"
    (PDict [("name", PStr "web"); ("image", PStr "nginx:1.25");
            ("resources", PDict [("limits", PDict [("cpu", PStr "1")]); ("requests", PDict [("cpu", PStr "1")])]);
            ("securityContext", PDict [("runAsNonRoot", PBool true); ("readOnlyRootFilesystem", PBool true)])])
    ([], []) = (([], []), Ok tt).
Proof.
  apply (check_container_clean "d.yaml" _
           [("limits", PDict [("cpu", PStr "1")]); ("requests", PDict [("cpu", PStr "1")])]
           [("runAsNonRoot", PBool true); ("readOnlyRootFilesystem", PBool true)] "nginx:1.25");
  vm_compute; reflexivity.
Defined.

Lemma check_container_tag_warning_witness :
  MLatestTag "d.yaml" (PStr "web") ∈
    (check_container "d.yaml" (PDict [("name", PStr "web"); ("image", PStr "nginx")]) ([], [])).1.2.
Proof.
  apply (check_container_tag_warning "d.yaml" [("name", PStr "web"); ("image", PStr "nginx")] [] [] "nginx");
  [reflexivity|reflexivity|reflexivity|].
  right. vm_compute. reflexivity.
Defined.

Lemma validate_service_selector_warning_witness :
  [MServiceNoSelector "s.yaml"] =
  (if py_eq (PStr "10.0.0.1") (PStr "None") || py_truthy (PDict []) then [] else [MServiceNoSelector "s.yaml"]).
Proof.
  apply (validate_service_selector_warning "s.yaml"
           [("spec", PDict [("clusterIP", PStr "10.0.0.1"); ("ports", PList [PDict [("port", PInt 80)]])])]
           [("clusterIP", PStr "10.0.0.1"); ("ports", PList [PDict [("port", PInt 80)]])] []);
  vm_compute; reflexivity.
Defined.

Lemma validate_ingress_findings_bound_witness :
  [] = @nil msg /\ length [MIngressNoTls "i.yaml"; MIngressExampleCom "i.yaml"; MIngressRuleNoHost "i.yaml"] <= 1 + 2.
Proof.
  apply (validate_ingress_findings_bound "i.yaml"
           [("spec", PDict [("rules", PList [PDict [("host", PStr "app.example.com")]; PDict []])])]
           [("rules", PList [PDict [("host", PStr "app.example.com")]; PDict []])]
           [PDict [("host", PStr "app.example.com")]; PDict []]);
  vm_compute; reflexivity.
Defined.

Lemma validate_network_policy_types_witness :
  exists ws, run_validator (validate_network_policy "n.yaml"
               (PDict [("spec", PDict [("policyTypes", PList [PStr "Egress"])])])) = Ok ([], ws) /\
    (ws = [] \/ ws = [MNetpolNoTypes "n.yaml"]) /\
    (ws = [] <-> PStr "Ingress" ∈ [PStr "Egress"] \/ PStr "Egress" ∈ [PStr "Egress"]).
Proof.
  apply (validate_network_policy_types "n.yaml" _ [("policyTypes", PList [PStr "Egress"])]);
  reflexivity.
Defined.

Lemma validate_network_policy_null_types_witness :
  run_validator (validate_network_policy "n.yaml" (PDict [("spec", PDict [("policyTypes", PNone)])])) =
  Exc (TypeError "argument of type 'NoneType' is not iterable").
Proof.
  apply (validate_network_policy_null_types "n.yaml" _ [("policyTypes", PNone)]); reflexivity.
Defined.

Lemma validate_secret_distinct_keys_witness :
  [] = @nil msg /\ exists ks, [MSecretPlaceholder "x.yaml" "a"] = map (MSecretPlaceholder "x.yaml") ks /\ NoDup ks.
Proof.
  apply (validate_secret_distinct_keys "x.yaml"
           (PDict [("data", PDict [("a", PStr "CHANGE_ME")]);
                   ("stringData", PDict [("a", PStr "CHANGE_ME_TOO"); ("b", PStr "ok")])])).
  vm_compute. reflexivity.
Defined.

Lemma advanced_doc_secret_null_data_witness :
  advanced_doc "m.yaml" (PDict [("kind", PStr "Secret"); ("data", PNone)]) =
  Exc (TypeError "'NoneType' object is not a mapping").
Proof. apply advanced_doc_secret_null_data; reflexivity. Defined.

Lemma advanced_doc_hpa_str_min_witness :
  advanced_doc "h.yaml"
    (PDict [("kind", PStr "HorizontalPodAutoscaler");
            ("spec", PDict [("minReplicas", PStr "2"); ("maxReplicas", PInt 5)])]) =
  Exc (TypeError "'>=' not supported between instances of 'str' and 'int'").
Proof.
  apply (advanced_doc_hpa_str_min "h.yaml" _ [("minReplicas", PStr "2"); ("maxReplicas", PInt 5)] "2" (PInt 5) 5);
  reflexivity.
Defined.

Lemma validate_advanced_split_witness :
  validate_advanced (mkfile "m.yaml" (Loaded ([PDict [("kind", PStr "Secret"); ("data", PDict [("k", PStr "CHANGE_ME")])]] ++
                                             [PDict [("kind", PStr "NetworkPolicy")]]))) =
  ((validate_advanced (mkfile "m.yaml" (Loaded [PDict [("kind", PStr "Secret"); ("data", PDict [("k", PStr "CHANGE_ME")])]]))).1 ++
   (validate_advanced (mkfile "m.yaml" (Loaded [PDict [("kind", PStr "NetworkPolicy")]]))).1,
   (validate_advanced (mkfile "m.yaml" (Loaded [PDict [("kind", PStr "Secret"); ("data", PDict [("k", PStr "CHANGE_ME")])]]))).2 ++
   (validate_advanced (mkfile "m.yaml" (Loaded [PDict [("kind", PStr "NetworkPolicy")]]))).2).
Proof.
  apply validate_advanced_split. repeat constructor. eexists. vm_compute. reflexivity.
Defined.

Lemma validate_advanced_exception_witness :
  validate_advanced (mkfile "m.yaml" (Loaded ([PDict [("kind", PStr "Secret"); ("data", PDict [("k", PStr "CHANGE_ME")])]] ++
                                             PDict [("kind", PStr "Secret"); ("data", PNone)] ::
                                             [PDict [("kind", PStr "Service")]]))) =
  ((validate_advanced (mkfile "m.yaml" (Loaded [PDict [("kind", PStr "Secret"); ("data", PDict [("k", PStr "CHANGE_ME")])]]))).1 ++
     [MValidating ("k8s/" ++ "m.yaml") (TypeError "'NoneType' object is not a mapping")],
   (validate_advanced (mkfile "m.yaml" (Loaded [PDict [("kind", PStr "Secret"); ("data", PDict [("k", PStr "CHANGE_ME")])]]))).2).
Proof.
  apply validate_advanced_exception; [|reflexivity].
  repeat constructor. eexists. vm_compute. reflexivity.
Defined.

Lemma check_label_consistency_manifests_witness :
  check_label_consistency
    [mkfile "kustomization.yaml" (Loaded [PDict [("metadata", PDict [("labels", PDict [("app", PStr "k")])])]]);
     mkfile "a.yaml" (Loaded [PDict [("metadata", PDict [("labels", PDict [("app", PStr "a")])])]]);
     mkfile "b.yaml" (Loaded [PDict [("metadata", PDict [("labels", PDict [("app", PStr "b")])])]])] =
  check_label_consistency
    [mkfile "b.yaml" (Loaded [PDict [("metadata", PDict [("labels", PDict [("app", PStr "b")])])]]);
     mkfile "a.yaml" (Loaded [PDict [("metadata", PDict [("labels", PDict [("app", PStr "a")])])]])].
Proof. apply check_label_consistency_manifests. vm_compute. apply perm_swap. Defined.

Lemma check_label_consistency_app_witness :
  (check_label_consistency
     (map (fun x => mkfile (x ++ ".yaml") (Loaded [PDict [("metadata", PDict [("labels", PDict [("app", PStr x)])])]]))
        ["a"; "b"; "c"; "d"; "e"; "f"] ++
      [mkfile "g.yaml" (LoadError (YAMLError "bad"))])).2 <> [].
Proof. apply check_label_consistency_app. vm_compute. discriminate. Defined.

Lemma validate_yaml_file_kustomization_witness :
  validate_yaml_file (mkfile "kustomization.yaml" (Loaded [PDict [("resources", PList [PStr "a.yaml"])]; PNone])) = ([], []).
Proof.
  apply (validate_yaml_file_kustomization _ [PDict [("resources", PList [PStr "a.yaml"])]; PNone]);
  [reflexivity|reflexivity|discriminate|].
  constructor; [right; eexists; reflexivity|]. constructor; [left; reflexivity|]. constructor.
Defined.

Lemma validate_yaml_file_scalar_doc_witness :
  validate_yaml_file (mkfile "a.yaml" (Loaded [PStr "hello"; PDict []])) =
  ([MReading "k8s/a.yaml" (AttributeError "'str' object has no attribute 'get'")], []).
Proof.
  apply (validate_yaml_file_scalar_doc (mkfile "a.yaml" (Loaded [PStr "hello"; PDict []])) (PStr "hello") [PDict []]); [reflexivity|discriminate|].
  intros m. discriminate.
Defined.

Lemma baseline_doc_bare_mapping_witness :
  baseline_doc (mkfile "a.yaml" (Loaded [])) 2 (PDict [("spec", PDict [])]) ([], []) =
  (([] ++ [MMissingApiVersion 2 "k8s/a.yaml"; MMissingKind 2 "k8s/a.yaml"; MMissingMetadata 2 "k8s/a.yaml"], []),
   Ok tt).
Proof. apply (baseline_doc_bare_mapping (mkfile "a.yaml" (Loaded [])) 2 [("spec", PDict [])]); reflexivity. Defined.

Lemma validate_yaml_file_doc_index_witness :
  MMissingApiVersion 1 "k8s/a.yaml" ∈
    (validate_yaml_file (mkfile "a.yaml" (Loaded ([PNone] ++ [PDict [("kind", PStr "ConfigMap")]])))).1.
Proof.
  apply (validate_yaml_file_doc_index (mkfile "a.yaml" (Loaded ([PNone] ++ [PDict [("kind", PStr "ConfigMap")]])))
           [PNone] [("kind", PStr "ConfigMap")] []); reflexivity.
Defined.

Lemma dict_merge_lookup_witness :
  exists m, dict_merge (PDict [("a", PStr "1")]) (PDict [("a", PStr "2"); ("b", PStr "3")]) = Ok m /\
    NoDup (map fst m) /\
    forall k, dict_lookup m k =
      match dict_lookup [("a", PStr "2"); ("b", PStr "3")] k with
      | Some v => Some v | None => dict_lookup [("a", PStr "1")] k end.
Proof.
  apply dict_merge_lookup; apply (bool_decide_unpack _); vm_compute; exact I.
Defined.
